(** * conversion_server.py: the TF.js -> TFLite conversion service

    A shallow embedding of the two Flask handlers of [conversion_server.py],
    [convert_model] (POST /convert) and [health] (GET /health), and the
    properties of the service that follow from their control flow.

    The handlers are glue around the file system and two external libraries.
    The embedding keeps the glue as written and takes everything the Python
    code calls but does not define as a field of an environment record
    [Env]: the outcome of the two imports, the framework's parser of the
    multipart body, [json.loads], [json.dumps], the text codec of
    [open(..., 'r')], the random names of [tempfile], the Keras loader, the
    TFLite converter, and a fault oracle telling which file-system call
    sites raise.  Every such call may raise any Python
    exception deriving from [Exception]; signals that derive from
    [BaseException] only (KeyboardInterrupt, SystemExit) are outside the
    model.  One request is handled in isolation: no other process touches
    the file system while the handler runs. *)

From Stdlib Require Import ZArith Ascii String List Bool.
From stdpp Require Import base option gmap strings list fin_maps pretty.
Import ListNotations.
Local Open Scope string_scope.

(** ** Python exceptions *)

Module Exc.

(** The exception classes the handlers can meet.  [Other n] stands for a
    class of a third-party library that derives directly from
    [Exception]. *)
Inductive cls : Type :=
| Exception
| ImportError | ModuleNotFoundError
| ValueError | JSONDecodeError | UnicodeDecodeError
| TypeError | AttributeError | KeyError
| OSError | FileNotFoundError | FileExistsError | PermissionError
| RuntimeError | RecursionError
| Other (name : string).

#[global] Instance cls_eq_dec : EqDecision cls.
Proof. solve_decision. Defined.

(** The direct base class; [Exception] is the root of the model. *)
Definition base (c : cls) : option cls :=
  match c with
  | Exception => None
  | ModuleNotFoundError => Some ImportError
  | JSONDecodeError => Some ValueError
  | UnicodeDecodeError => Some ValueError
  | FileNotFoundError | FileExistsError | PermissionError => Some OSError
  | RecursionError => Some RuntimeError
  | _ => Some Exception
  end.

Fixpoint issubclass_fuel (n : nat) (c d : cls) : bool :=
  if bool_decide (c = d) then true
  else match n with
       | O => false
       | S n' => match base c with
                 | Some b => issubclass_fuel n' b d
                 | None => false
                 end
       end.

(** The hierarchy above is three levels deep. *)
Definition issubclass (c d : cls) : bool := issubclass_fuel 3 c d.

(** An exception instance: its class and [str(e)]. *)
Record t : Type := mk { class : cls; str : string }.

Definition isinstance (e : t) (d : cls) : bool := issubclass (class e) d.

End Exc.

Abbreviation exn := Exc.t.

(** A call either raises or returns. *)
Abbreviation result A := (sum exn A).

Definition rbind {A B} (r : result A) (k : A -> result B) : result B :=
  match r with
  | inl e => inl e
  | inr a => k a
  end.

Fixpoint rmap_list {A B} (f : A -> result B) (l : list A) : result (list B) :=
  match l with
  | [] => inr []
  | x :: l' =>
      rbind (f x) (fun y => rbind (rmap_list f l') (fun ys => inr (y :: ys)))
  end.

(** ** JSON values as Python objects *)

(** What [json.load] builds: None, bool, int, float, str, list, dict.  A
    float is carried by its literal; a dict keeps its insertion order. *)
#[warnings="-register-all"]
Inductive json : Type :=
| JNull
| JBool (b : bool)
| JInt (z : Z)
| JFloat (literal : string)
| JStr (s : string)
| JList (items : list json)
| JDict (entries : list (string * json)).

Definition py_type_name (v : json) : string :=
  match v with
  | JNull => "NoneType"
  | JBool _ => "bool"
  | JInt _ => "int"
  | JFloat _ => "float"
  | JStr _ => "str"
  | JList _ => "list"
  | JDict _ => "dict"
  end.

Definition type_error (msg : string) : exn := Exc.mk Exc.TypeError msg.

(** [dict.get(k)]: the value stored under [k]. *)
Fixpoint dict_get (k : string) (d : list (string * json)) : option json :=
  match d with
  | [] => None
  | (k', v) :: d' => if String.eqb k k' then Some v else dict_get k d'
  end.

(** [d[k] = v]: an existing key keeps its position, a new key goes last. *)
Fixpoint dict_set (k : string) (v : json) (d : list (string * json))
  : list (string * json) :=
  match d with
  | [] => [(k, v)]
  | (k', v') :: d' =>
      if String.eqb k k' then (k', v) :: d' else (k', v') :: dict_set k v d'
  end.

(** [needle in hay] on two str objects: substring search. *)
Fixpoint str_contains (needle hay : string) : bool :=
  if String.prefix needle hay then true
  else match hay with
       | EmptyString => false
       | String _ hay' => str_contains needle hay'
       end.

Definition is_str (k : string) (v : json) : bool :=
  match v with
  | JStr s => String.eqb k s
  | _ => false
  end.

(** [k in v] for a str [k]: key membership on a dict, element equality on a
    list, substring on a str, TypeError on anything else. *)
Definition py_contains (k : string) (v : json) : result bool :=
  match v with
  | JDict d => inr (bool_decide (is_Some (dict_get k d)))
  | JList l => inr (existsb (is_str k) l)
  | JStr s => inr (str_contains k s)
  | _ => inl (type_error
                ("argument of type '" +:+ py_type_name v +:+ "' is not iterable"))
  end.

(** [v[k]] for a str [k]. *)
Definition py_getitem (k : string) (v : json) : result json :=
  match v with
  | JDict d =>
      match dict_get k d with
      | Some x => inr x
      | None => inl (Exc.mk Exc.KeyError ("'" +:+ k +:+ "'"))
      end
  | JList _ => inl (type_error "list indices must be integers or slices, not str")
  | JStr _ => inl (type_error "string indices must be integers, not 'str'")
  | _ => inl (type_error ("'" +:+ py_type_name v +:+ "' object is not subscriptable"))
  end.

Fixpoint chars (s : string) : list json :=
  match s with
  | EmptyString => []
  | String c s' => JStr (String c EmptyString) :: chars s'
  end.

(** [for x in v]: the elements of a list, the keys of a dict, the
    characters of a str. *)
Definition py_iter (v : json) : result (list json) :=
  match v with
  | JList l => inr l
  | JDict d => inr (map (fun kv => JStr (fst kv)) d)
  | JStr s => inr (chars s)
  | _ => inl (type_error ("'" +:+ py_type_name v +:+ "' object is not iterable"))
  end.

(** [v[k] = x] for a str [k]; returns the object after the assignment. *)
Definition py_setitem (k : string) (x : json) (v : json) : result json :=
  match v with
  | JDict d => inr (JDict (dict_set k x d))
  | JList _ => inl (type_error "list indices must be integers or slices, not str")
  | _ => inl (type_error
                ("'" +:+ py_type_name v +:+ "' object does not support item assignment"))
  end.

(** The name every manifest entry is pointed at. *)
Definition weights_paths : json := JList [JStr "weights.bin"].

(** Lines 82-83: [for manifest in model_config['weightsManifest']:
    manifest['paths'] = ['weights.bin']].  The elements are mutated in
    place, so the list that [model_config] holds sees the new entries; the
    keys of a dict and the characters of a str are immutable and make the
    first assignment raise.  Returns [model_config] after the loop. *)
Definition patch_manifest (model_config : json) : result json :=
  rbind (py_getitem "weightsManifest" model_config) (fun manifests =>
  rbind (py_iter manifests) (fun items =>
  rbind (rmap_list (py_setitem "paths" weights_paths) items) (fun items' =>
  match model_config, manifests with
  | JDict d, JList _ => inr (JDict (dict_set "weightsManifest" (JList items') d))
  | _, _ => inr model_config
  end))).

(** Line 89: [list(model_config.get('modelTopology', {}).keys()) if
    isinstance(model_config.get('modelTopology'), dict) else 'N/A'];
    [None] stands for 'N/A'. *)
Definition topology_keys (model_config : json) : result (option (list string)) :=
  match model_config with
  | JDict d =>
      match dict_get "modelTopology" d with
      | Some (JDict t) => inr (Some (map fst t))
      | _ => inr None
      end
  | _ => inl (Exc.mk Exc.AttributeError
                ("'" +:+ py_type_name model_config +:+ "' object has no attribute 'get'"))
  end.

(** ** Strings, paths and multi-dicts *)

(** [str.lower] on the ASCII letters.  No character outside ASCII lowers to
    one of [t], [r], [u], [e], so comparing the result with ['true'] is
    decided by the ASCII part. *)
Definition ascii_lower (c : ascii) : ascii :=
  let n := nat_of_ascii c in
  if (65 <=? n)%nat && (n <=? 90)%nat then ascii_of_nat (n + 32) else c.

Fixpoint lower (s : string) : string :=
  match s with
  | EmptyString => EmptyString
  | String c s' => String (ascii_lower c) (lower s')
  end.

Fixpoint ends_with_slash (s : string) : bool :=
  match s with
  | EmptyString => false
  | String c EmptyString => Ascii.eqb c "/"
  | String _ s' => ends_with_slash s'
  end.

(** [posixpath.join] of two components. *)
Definition os_path_join (a b : string) : string :=
  if String.prefix "/" b then b
  else if String.eqb a "" || ends_with_slash a then a +:+ b
  else a +:+ "/" +:+ b.

(** [p] is the directory [d] or lies below it. *)
Definition under (d p : string) : bool :=
  String.eqb d p || String.prefix (d +:+ "/") p.

(** A werkzeug MultiDict: [k in d], [d.get(k, default)] and [d[k]] all look
    at the first value stored under [k]. *)
Fixpoint multi_get {A} (k : string) (d : list (string * A)) : option A :=
  match d with
  | [] => None
  | (k', v) :: d' => if String.eqb k k' then Some v else multi_get k d'
  end.

Definition multi_mem {A} (k : string) (d : list (string * A)) : bool :=
  bool_decide (is_Some (multi_get k d)).

Definition multi_get_default {A} (k : string) (default : A)
  (d : list (string * A)) : A :=
  match multi_get k d with
  | Some v => v
  | None => default
  end.

(** ** Requests and responses *)

(** The parts of [flask.request] the handler reads: the uploaded file parts
    (field name and bytes) and the form fields that the multipart body
    holds, and the query arguments. *)
Record Request : Type := mkRequest {
  files : list (string * string);
  form : list (string * string);
  args : list (string * string)
}.

Inductive Body : Type :=
| JsonBody (payload : json)
| FileBody (content mimetype download_name : string).

Record Response : Type := mkResponse {
  status : Z;
  body : Body
}.

(** [jsonify({'error': msg}), code] *)
Definition error_response (code : Z) (msg : string) : Response :=
  mkResponse code (JsonBody (JDict [("error", JStr msg)])).

(** ** The file system *)

Inductive node : Type :=
| Dir
| File (content : string).

(** The call sites that touch the file system, one per source line. *)
Inductive site : Type :=
| AtMkdtemp          (* line 68 *)
| AtSaveModelJson    (* line 73 *)
| AtSaveWeights      (* line 74 *)
| AtOpenModelJson    (* line 77 *)
| AtRewriteModelJson (* line 85 *)
| AtGetsize          (* line 90 *)
| AtWriteTflite      (* line 112 *)
| AtSendFile         (* line 115 *)
| AtRmtree.          (* line 131 *)

(** [shutil.rmtree(d)]: [d] and everything below it is gone. *)
Definition rmtree_fs (d : string) (fs : gmap string node) : gmap string node :=
  filter (fun kv => under d (fst kv) = false) fs.

(** [tempfile.mkdtemp]: the first candidate name that is free. *)
Fixpoint first_free (fs : gmap string node) (dir pre : string)
  (names : list string) : option string :=
  match names with
  | [] => None
  | n :: names' =>
      let p := os_path_join dir (pre +:+ n) in
      match fs !! p with
      | None => Some p
      | Some _ => first_free fs dir pre names'
      end
  end.

(** ** The TFLite converter object *)

Inductive Optimize : Type := OptimizeDEFAULT.
Inductive DType : Type := DTfloat16.

(** A [TFLiteConverter] as the handler sees it: the model it was built
    from and the two attributes the handler may assign; [None] is an
    attribute the handler left at the library's default. *)
Record Converter {Model : Type} : Type := mkConverter {
  conv_model : Model;
  optimizations : option (list Optimize);
  supported_types : option (list DType)
}.
Arguments Converter : clear implicits.
Arguments mkConverter {Model}.

(** Lines printed to stdout, by source line. *)
Inductive log_line : Type :=
| LogLoading (tmp_dir : string)                    (* line 88 *)
| LogTopologyKeys (keys : option (list string))    (* line 89 *)
| LogWeightsSize (bytes : nat)                     (* line 90 *)
| LogConverting (quantize : bool)                  (* line 97 *)
| LogFloat16                                       (* line 105 *)
| LogModelSize (bytes : nat).                      (* line 108 *)

(** What the handler does to the outside world besides the file system. *)
Inductive event {Model : Type} : Type :=
| EvPrint (l : log_line)
| EvLoad (seen : gmap string node) (path : string)  (* line 93 *)
| EvSummary (m : Model)                             (* line 94 *)
| EvFromKeras (m : Model)                           (* line 98 *)
| EvConvert (c : Converter Model)                   (* line 107 *)
| EvTraceback (e : exn).                            (* line 124 *)
Arguments event : clear implicits.

(** ** The environment and the handler monad *)

Section Handlers.

(** The Python object [load_keras_model] returns. *)
Context {Model : Type}.

(** Everything the handlers call but do not define. *)
Record Env : Type := mkEnv {
  import_tensorflow : result string;      (* [tf.__version__] on success *)
  import_tensorflowjs : result string;    (* [tensorflowjs.__version__] *)
  parse_form_data : Request -> option exn; (* the parse behind [request.files] *)
  json_loads : string -> result json;
  json_dumps : json -> string;
  decode_text : string -> result string;  (* reading a file opened with 'r' *)
  tempdir : string;                       (* [tempfile.gettempdir()] *)
  tmp_names : list string;                (* the random names mkdtemp tries *)
  fault : site -> option exn;             (* the file-system calls that raise *)
  load_keras_model : gmap string node -> string -> result Model;
  model_summary : Model -> option exn;
  from_keras_model : Model -> option exn;
  convert : Converter Model -> result string
}.

(** The file system, what the handler did so far, and the handler's local
    variable [tmp_dir]. *)
Record State : Type := mkState {
  fs : gmap string node;
  events : list (event Model);
  tmp_dir : option string
}.

Definition M (A : Type) : Type := State -> result A * State.

Definition ret {A} (a : A) : M A := fun st => (inr a, st).
Definition raise {A} (e : exn) : M A := fun st => (inl e, st).

Definition bind {A B} (m : M A) (k : A -> M B) : M B :=
  fun st =>
    match m st with
    | (inl e, st') => (inl e, st')
    | (inr a, st') => k a st'
    end.

Definition lift {A} (r : result A) : M A := fun st => (r, st).

(** [try: m  except c as e: h e] *)
Definition try_except {A} (m : M A) (c : Exc.cls) (h : exn -> M A) : M A :=
  fun st =>
    match m st with
    | (inl e, st') => if Exc.isinstance e c then h e st' else (inl e, st')
    | (inr a, st') => (inr a, st')
    end.

(** [try: m  finally: f]: [f] runs on every way out of [m]; an exception
    of [f] replaces the outcome of [m]. *)
Definition try_finally {A} (m : M A) (f : M unit) : M A :=
  fun st =>
    let (r, st1) := m st in
    match f st1 with
    | (inl e, st2) => (inl e, st2)
    | (inr _, st2) => (r, st2)
    end.

Definition emit (ev : event Model) : M unit :=
  fun st => (inr tt, mkState (fs st) (events st ++ [ev]) (tmp_dir st)).

Definition set_fs (f : gmap string node) : M unit :=
  fun st => (inr tt, mkState f (events st) (tmp_dir st)).

Definition set_tmp_dir (d : option string) : M unit :=
  fun st => (inr tt, mkState (fs st) (events st) d).

Definition get_fs : M (gmap string node) := fun st => (inr (fs st), st).
Definition get_tmp_dir : M (option string) := fun st => (inr (tmp_dir st), st).

(** A file-system call site raises when the oracle says so. *)
Definition check_fault (env : Env) (s : site) : M unit :=
  match fault env s with
  | Some e => raise e
  | None => ret tt
  end.

End Handlers.

Arguments Env : clear implicits.
Arguments State : clear implicits.
Arguments M : clear implicits.

Notation "'let*' x ':=' m 'in' k" := (bind m (fun x => k))
  (at level 10, x name, m at level 100, k at level 200, only parsing).
Notation "m ';;' k" := (bind m (fun _ => k))
  (at level 100, k at level 200, right associativity, only parsing).

Section FileSystem.

Context {Model : Type}.
Variable env : Env Model.

(** [tempfile.mkdtemp(prefix=pre)] *)
Definition mkdtemp (pre : string) : M Model string :=
  check_fault env AtMkdtemp ;;
  let* f := get_fs in
  match first_free f (tempdir env) pre (tmp_names env) with
  | None =>
      raise (Exc.mk Exc.FileExistsError
               "[Errno 17] No usable temporary directory name found")
  | Some p => set_fs (<[p := Dir]> f) ;; ret p
  end.

(** Writing a whole file: [FileStorage.save], [json.dump] into
    [open(p, 'w')], [f.write] into [open(p, 'wb')]. *)
Definition write_file (s : site) (p content : string) : M Model unit :=
  check_fault env s ;;
  let* f := get_fs in
  set_fs (<[p := File content]> f).

(** Reading a whole file. *)
Definition read_file (s : site) (p : string) : M Model string :=
  check_fault env s ;;
  let* f := get_fs in
  match f !! p with
  | Some (File c) => ret c
  | Some Dir =>
      raise (Exc.mk Exc.OSError ("[Errno 21] Is a directory: '" +:+ p +:+ "'"))
  | None =>
      raise (Exc.mk Exc.FileNotFoundError
               ("[Errno 2] No such file or directory: '" +:+ p +:+ "'"))
  end.

(** [os.path.getsize(p)]; the size of a directory entry is not modelled. *)
Definition getsize (p : string) : M Model nat :=
  check_fault env AtGetsize ;;
  let* f := get_fs in
  match f !! p with
  | Some (File c) => ret (String.length c)
  | Some Dir => ret 0
  | None =>
      raise (Exc.mk Exc.FileNotFoundError
               ("[Errno 2] No such file or directory: '" +:+ p +:+ "'"))
  end.

(** [send_file(p, mimetype=..., as_attachment=True, download_name=...)]:
    the file is opened here, so the response carries the bytes the file
    holds now. *)
Definition send_file (p mimetype download_name : string) : M Model Response :=
  let* c := read_file AtSendFile p in
  ret (mkResponse 200 (FileBody c mimetype download_name)).

(** [shutil.rmtree(d)]; when it raises, [d] itself is still there. *)
Definition rmtree (d : string) : M Model unit :=
  check_fault env AtRmtree ;;
  let* f := get_fs in
  set_fs (rmtree_fs d f).

End FileSystem.

(** ** The handlers *)

Section ConversionServer.

Context {Model : Type}.
Variable env : Env Model.

(** Lines 45-48. *)
Definition missing_dependency (e : exn) : Response :=
  error_response 500
    ("Missing dependency: " +:+ Exc.str e +:+ ". "
     +:+ "Install with: pip install tensorflow tensorflowjs").

(** Lines 41-48: the lazy imports; [Some r] is the [return] of the
    [except ImportError] clause. *)
Definition lazy_imports : M Model (option Response) :=
  try_except
    (lift (import_tensorflow env) ;;
     lift (import_tensorflowjs env) ;;
     ret None)
    Exc.ImportError
    (fun e => ret (Some (missing_dependency e))).

(** Line 59. *)
Definition quantize_flag (req : Request) : bool :=
  String.eqb (lower (multi_get_default "quantize" "false" (args req))) "true".

(** Lines 62-65. *)
Definition parse_metadata (metadata_str : string) : M Model json :=
  try_except
    (lift (json_loads env metadata_str))
    Exc.JSONDecodeError
    (fun _ => ret (JDict [])).

(** [request.files[k]]; werkzeug raises BadRequestKeyError on a missing
    key. *)
Definition files_getitem (k : string) (req : Request) : M Model string :=
  match multi_get k (files req) with
  | Some f => ret f
  | None => raise (Exc.mk Exc.KeyError "400 Bad Request: The browser (or proxy) sent a request that this server could not understand.")
  end.

(** Lines 81-86: patch the manifest and rewrite [model.json]; returns
    [model_config] as the rest of the handler sees it. *)
Definition fix_manifest (model_json_path : string) (model_config : json)
  : M Model json :=
  let* has := lift (py_contains "weightsManifest" model_config) in
  if has : bool then
    let* patched := lift (patch_manifest model_config) in
    write_file env AtRewriteModelJson model_json_path (json_dumps env patched) ;;
    ret patched
  else ret model_config.

(** Lines 98-105: build the converter and, under the flag, configure it. *)
Definition make_converter (quantize : bool) (model : Model)
  : M Model (Converter Model) :=
  emit (EvFromKeras model) ;;
  match from_keras_model env model with
  | Some e => raise e
  | None =>
      let converter := mkConverter model None None in
      if quantize then
        let converter :=
          mkConverter (conv_model converter) (Some [OptimizeDEFAULT])
            (supported_types converter) in
        let converter :=
          mkConverter (conv_model converter) (optimizations converter)
            (Some [DTfloat16]) in
        emit (EvPrint LogFloat16) ;;
        ret converter
      else ret converter
  end.

(** Lines 67-120: staging, loading and conversion.  The parsed metadata
    is not among the arguments: no line below line 65 mentions it. *)
Definition convert_staged (model_json_file weights_bin_file : string)
  (quantize : bool) : M Model Response :=
  let* tmp := mkdtemp env "tfjs_convert_" in
  set_tmp_dir (Some tmp) ;;
  let model_json_path := os_path_join tmp "model.json" in
  let weights_bin_path := os_path_join tmp "weights.bin" in
  write_file env AtSaveModelJson model_json_path model_json_file ;;
  write_file env AtSaveWeights weights_bin_path weights_bin_file ;;
  let* raw := read_file env AtOpenModelJson model_json_path in
  let* text := lift (decode_text env raw) in
  let* model_config := lift (json_loads env text) in
  let* model_config := fix_manifest model_json_path model_config in
  emit (EvPrint (LogLoading tmp)) ;;
  let* keys := lift (topology_keys model_config) in
  emit (EvPrint (LogTopologyKeys keys)) ;;
  let* size := getsize env weights_bin_path in
  emit (EvPrint (LogWeightsSize size)) ;;
  let* seen := get_fs in
  emit (EvLoad seen model_json_path) ;;
  let* model := lift (load_keras_model env seen model_json_path) in
  emit (EvSummary model) ;;
  let* _ := match model_summary env model with
            | Some e => raise e
            | None => ret tt
            end in
  emit (EvPrint (LogConverting quantize)) ;;
  let* converter := make_converter quantize model in
  emit (EvConvert converter) ;;
  let* tflite_model := lift (convert env converter) in
  emit (EvPrint (LogModelSize (String.length tflite_model))) ;;
  let tflite_path := os_path_join tmp "model.tflite" in
  write_file env AtWriteTflite tflite_path tflite_model ;;
  send_file env tflite_path "application/octet-stream" "model.tflite".

(** Line 51, the first evaluation of [request.files]: it parses the
    multipart body, and raises what the parser raises (a body with too
    many parts, a form field that is too large).  The parts are stored, so
    the later accesses to [request.files] and [request.form] read them
    without parsing; [request.args] comes from the URL. *)
Definition load_form_data (req : Request) : M Model unit :=
  match parse_form_data env req with
  | Some e => raise e
  | None => ret tt
  end.

(** Lines 40-120: the body of the outer [try]. *)
Definition convert_try (req : Request) : M Model Response :=
  let* early := lazy_imports in
  match early with
  | Some r => ret r
  | None =>
    load_form_data req ;;
    if negb (multi_mem "model_json" (files req)) then
      ret (error_response 400 "Missing model_json file")
    else if negb (multi_mem "weights_bin" (files req)) then
      ret (error_response 400 "Missing weights_bin file")
    else
      let* model_json_file := files_getitem "model_json" req in
      let* weights_bin_file := files_getitem "weights_bin" req in
      let metadata_str := multi_get_default "metadata" "{}" (form req) in
      let quantize := quantize_flag req in
      let* metadata := parse_metadata metadata_str in
      convert_staged model_json_file weights_bin_file quantize
  end.

(** Lines 122-125. *)
Definition convert_except (e : exn) : M Model Response :=
  emit (EvTraceback e) ;;
  ret (error_response 500 (Exc.str e)).

(** [os.path.exists(p)] *)
Definition path_exists (f : gmap string node) (p : string) : bool :=
  bool_decide (is_Some (f !! p)).

(** Lines 127-133. *)
Definition convert_finally : M Model unit :=
  let* t := get_tmp_dir in
  let* f := get_fs in
  match t with
  | Some d =>
      if negb (String.eqb d "") && path_exists f d then
        try_except (rmtree env d) Exc.Exception (fun _ => ret tt)
      else ret tt
  | None => ret tt
  end.

(** Lines 36-133: POST /convert. *)
Definition convert_model (req : Request) : M Model Response :=
  set_tmp_dir None ;;
  try_finally
    (try_except (convert_try req) Exc.Exception convert_except)
    convert_finally.

(** Lines 140-144 and 145-149: one dependency probe of [health]. *)
Definition probe (name : string) (import : result string)
  (st : list (string * json)) : M Model (list (string * json)) :=
  try_except
    (let* version := lift import in
     ret (dict_set name (JStr version) st))
    Exc.ImportError
    (fun _ => ret (dict_set name (JStr "not installed") st)).

(** Lines 137-150: GET /health. *)
Definition health : M Model Response :=
  let st := [("status", JStr "ok"); ("server", JStr "tfjs-to-tflite-converter")] in
  let* st := probe "tensorflow" (import_tensorflow env) st in
  let* st := probe "tensorflowjs" (import_tensorflowjs env) st in
  ret (mkResponse 200 (JsonBody (JDict st))).

End ConversionServer.

(** A request arriving at a file system [f]. *)
Definition arrive {Model : Type} (f : gmap string node) : State Model :=
  mkState f [] None.

(** ** Startup: the [__main__] block *)

(** The keyword arguments of [app.run]. *)
Record ServeConfig : Type := mkServe {
  host : string;
  port : Z;
  debug : bool
}.

(** [s * n] on a str. *)
Fixpoint str_times (s : string) (n : nat) : string :=
  match n with
  | O => EmptyString
  | S n' => s +:+ str_times s n'
  end.

(** A script that prints lines to stdout and may raise. *)
Definition Out (A : Type) : Type := list string -> result A * list string.

Definition out_ret {A} (a : A) : Out A := fun out => (inr a, out).
Definition out_raise {A} (e : exn) : Out A := fun out => (inl e, out).

Definition out_bind {A B} (m : Out A) (k : A -> Out B) : Out B :=
  fun out =>
    match m out with
    | (inl e, out') => (inl e, out')
    | (inr a, out') => k a out'
    end.

(** [print(line)] *)
Definition print (line : string) : Out unit :=
  fun out => (inr tt, (out ++ [line])%list).

Declare Scope out_scope.
Delimit Scope out_scope with out.
Notation "'let*' x ':=' m 'in' k" := (out_bind m (fun x => k))
  (at level 10, x name, m at level 100, k at level 200, only parsing) : out_scope.
Notation "m ';;' k" := (out_bind m (fun _ => k))
  (at level 100, k at level 200, right associativity, only parsing) : out_scope.

Section Startup.

Context {Model : Type}.
Variable env : Env Model.

(** Lines 171-177 and 178-184: one dependency check of the startup block;
    returns [deps_ok] after the check. *)
Definition check_dependency (import : result string)
  (label warning hint : string) (deps_ok : bool) : Out bool :=
  (match import with
   | inr version => print (label +:+ version) ;; out_ret deps_ok
   | inl e =>
       if Exc.isinstance e Exc.ImportError then
         print warning ;; print hint ;; out_ret false
       else out_raise e
   end)%out.

(** Lines 153-195: the banner, the dependency report and the call of
    [app.run]; the result is what [app.run] is called with.  One execution
    of the block is modelled: under [debug=True] the reloader of the
    framework runs the module once more in a child process. *)
Definition startup : Out ServeConfig :=
  (print (str_times "=" 60) ;;
   print "TF.js to TFLite Conversion Server" ;;
   print (str_times "=" 60) ;;
   print "" ;;
   print "Endpoints:" ;;
   print "  POST /convert  - Convert TF.js model to TFLite" ;;
   print "  GET  /health   - Health check" ;;
   print "" ;;
   print "Usage from Calliope Teachable Machine:" ;;
   print "  1. Train a model in the browser" ;;
   print "  2. Enable Grove AI and connect device" ;;
   print "  3. Click 'Convert Current Model to TFLite'" ;;
   print "  4. Flash the converted model to the device" ;;
   print "" ;;
   let deps_ok := true in
   let* deps_ok :=
     check_dependency (import_tensorflow env) "  TensorFlow: "
       "  WARNING: TensorFlow not installed!"
       "    Install with: pip install tensorflow" deps_ok in
   let* deps_ok :=
     check_dependency (import_tensorflowjs env) "  TensorFlow.js: "
       "  WARNING: TensorFlow.js not installed!"
       "    Install with: pip install tensorflowjs" deps_ok in
   (if negb deps_ok then
      print "" ;;
      print "Install all dependencies:" ;;
      print "  pip install flask flask-cors tensorflow tensorflowjs" ;;
      print ""
    else out_ret tt) ;;
   print "" ;;
   print "Starting server on http://localhost:5000" ;;
   print (str_times "=" 60) ;;
   out_ret (mkServe "0.0.0.0" 5000 true))%out.

End Startup.

(** ** A concrete environment

    One installation of the service, used to run the handlers on concrete
    requests: both libraries present, an empty [/tmp], no file-system
    fault, a loader that wants a [modelTopology] and hands back the text of
    [model.json] as the model, and a converter whose output tells whether
    it was configured. *)

Module Demo.

Definition dq : string := String "034"%char EmptyString.

(** The upload of the examples:
    [{"modelTopology": {"class_name": "Sequential"},
      "weightsManifest": [{"paths": ["group1-shard1of1.bin"], "weights": []}]}] *)
Definition topology_text : string :=
  "{" +:+ dq +:+ "modelTopology" +:+ dq +:+ ": {" +:+ dq +:+ "class_name" +:+ dq
  +:+ ": " +:+ dq +:+ "Sequential" +:+ dq +:+ "}, "
  +:+ dq +:+ "weightsManifest" +:+ dq +:+ ": [{" +:+ dq +:+ "paths" +:+ dq
  +:+ ": [" +:+ dq +:+ "group1-shard1of1.bin" +:+ dq +:+ "], " +:+ dq
  +:+ "weights" +:+ dq +:+ ": []}]}".

Definition topology : json :=
  JDict [("modelTopology", JDict [("class_name", JStr "Sequential")]);
         ("weightsManifest",
          JList [JDict [("paths", JList [JStr "group1-shard1of1.bin"]);
                        ("weights", JList [])]])].

(** What the handler leaves in [model.json]. *)
Definition patched_topology : json :=
  JDict [("modelTopology", JDict [("class_name", JStr "Sequential")]);
         ("weightsManifest",
          JList [JDict [("paths", JList [JStr "weights.bin"]);
                        ("weights", JList [])]])].

(** [{"weightsManifest": [7]}]: a manifest whose entry is a number. *)
Definition odd_topology_text : string :=
  "{" +:+ dq +:+ "weightsManifest" +:+ dq +:+ ": [7]}".

Definition odd_topology : json := JDict [("weightsManifest", JList [JInt 7])].

Fixpoint all_digits (s : string) : bool :=
  match s with
  | EmptyString => true
  | String c s' =>
      let n := nat_of_ascii c in
      (48 <=? n)%nat && (n <=? 57)%nat && all_digits s'
  end.

Fixpoint repeat_string (n : nat) (s : string) : string :=
  match n with
  | O => EmptyString
  | S n' => s +:+ repeat_string n' s
  end.

(** A JSON integer literal of 4301 digits: well-formed JSON that
    [json.loads] rejects with a plain ValueError, the interpreter's limit
    on integer string conversion being 4300 digits. *)
Definition long_integer : string := repeat_string 4301 "1".

(** An opening bracket followed by 4301 digits and nothing else: not a
    JSON document, the list is never closed; [json.loads] converts the
    integer before it looks for the bracket and raises the same
    ValueError. *)
Definition unclosed_long_integer : string := "[" +:+ long_integer.

Definition too_many_digits (digits : string) : exn :=
  Exc.mk Exc.ValueError
    ("Exceeds the limit (4300 digits) for integer string conversion: "
     +:+ "value has " +:+ pretty (String.length digits) +:+ " digits; "
     +:+ "use sys.set_int_max_str_digits() to increase the limit").

Definition is_long_integer (s : string) : bool :=
  negb (String.eqb s "") && all_digits s && (4300 <? String.length s)%nat.

(** [json.loads] on the texts used below; every other text is taken as
    malformed. *)
Definition loads (s : string) : result json :=
  if String.eqb s "{}" then inr (JDict [])
  else if String.eqb s topology_text then inr topology
  else if String.eqb s odd_topology_text then inr odd_topology
  else if is_long_integer s then inl (too_many_digits s)
  else match s with
       | String "["%char digits =>
           if is_long_integer digits then inl (too_many_digits digits)
           else inl (Exc.mk Exc.JSONDecodeError
                       "Expecting value: line 1 column 2 (char 1)")
       | _ => inl (Exc.mk Exc.JSONDecodeError
                     "Expecting value: line 1 column 1 (char 0)")
       end.

(** The multipart parser with the limits the framework ships with: at
    most 1000 parts, files and fields together, and at most 500000 bytes
    in a form field. *)
Definition too_large (req : Request) : bool :=
  (1000 <? Z.of_nat (length (files req) + length (form req)))%Z
  || existsb (fun kv => (500000 <? Z.of_nat (String.length (snd kv)))%Z)
       (form req).

Definition request_entity_too_large : exn :=
  Exc.mk (Exc.Other "RequestEntityTooLarge")
    "413 Request Entity Too Large: The data value transmitted exceeds the capacity limit.".

Definition parse (req : Request) : option exn :=
  if too_large req then Some request_entity_too_large else None.

Definition join (sep : string) (l : list string) : string :=
  match l with
  | [] => ""
  | x :: l' => fold_left (fun acc y => acc +:+ sep +:+ y) l' x
  end.

(** [json.dumps] with the default separators, for values whose strings
    need no escaping; an int is printed in decimal. *)
Fixpoint dumps (v : json) : string :=
  match v with
  | JNull => "null"
  | JBool true => "true"
  | JBool false => "false"
  | JInt z => pretty z
  | JFloat l => l
  | JStr s => dq +:+ s +:+ dq
  | JList l => "[" +:+ join ", " (map dumps l) +:+ "]"
  | JDict d =>
      "{" +:+ join ", "
                (map (fun kv => dq +:+ fst kv +:+ dq +:+ ": " +:+ dumps (snd kv)) d)
      +:+ "}"
  end.

Definition installed (tf tfjs : result string) (flt : site -> option exn)
  : Env string :=
  {| import_tensorflow := tf;
     import_tensorflowjs := tfjs;
     parse_form_data := parse;
     json_loads := loads;
     json_dumps := dumps;
     decode_text := inr;
     tempdir := "/tmp";
     tmp_names := ["k3x9q0ab"; "w81mzp4c"];
     fault := flt;
     load_keras_model := fun f p =>
       match f !! p with
       | Some (File c) =>
           if str_contains "modelTopology" c then inr c
           else inl (Exc.mk Exc.KeyError "'modelTopology'")
       | _ => inl (Exc.mk Exc.FileNotFoundError p)
       end;
     model_summary := fun _ => None;
     from_keras_model := fun _ => None;
     convert := fun c =>
       match optimizations c with
       | Some _ => inr "TFL3/float16"
       | None => inr "TFL3/float32-twice-the-size"
       end |}.

Definition no_fault (s : site) : option exn := None.

Definition env : Env string := installed (inr "2.15.0") (inr "4.17.0") no_fault.

(** The machine has no tensorflow. *)
Definition env_without_tensorflow : Env string :=
  installed (inl (Exc.mk Exc.ModuleNotFoundError "No module named 'tensorflow'"))
    (inr "4.17.0") no_fault.

(** Removing the scratch directory is refused, as on a platform that
    does not delete a directory holding an open file. *)
Definition rmtree_refused (s : site) : option exn :=
  match s with
  | AtRmtree =>
      Some (Exc.mk Exc.PermissionError
              "[WinError 32] The process cannot access the file because it is being used by another process")
  | _ => None
  end.

Definition env_rmtree_refused : Env string :=
  installed (inr "2.15.0") (inr "4.17.0") rmtree_refused.

(** The disk fills up while the weights are saved. *)
Definition disk_full (s : site) : option exn :=
  match s with
  | AtSaveWeights => Some (Exc.mk Exc.OSError "[Errno 28] No space left on device")
  | _ => None
  end.

Definition env_disk_full : Env string :=
  installed (inr "2.15.0") (inr "4.17.0") disk_full.

Definition upload : list (string * string) :=
  [("model_json", topology_text); ("weights_bin", "0123456789abcdef")].

Definition request : Request := mkRequest upload [] [].

Definition request_quantized : Request :=
  mkRequest upload [] [("quantize", "True")].

Definition request_with_metadata (metadata : string) : Request :=
  mkRequest upload [("metadata", metadata)] [].

Definition request_without_files : Request := mkRequest [] [] [].

Definition request_only_model : Request :=
  mkRequest [("model_json", topology_text)] [] [].

(** The manifest holds a number where an entry should be. *)
Definition request_odd_manifest : Request :=
  mkRequest [("model_json", odd_topology_text); ("weights_bin", "")] [] [].

(** A topology without a model. *)
Definition request_empty_topology : Request :=
  mkRequest [("model_json", "{}"); ("weights_bin", "")] [] [].

(** The topology part is not JSON at all. *)
Definition request_bad_topology : Request :=
  mkRequest [("model_json", "not json"); ("weights_bin", "0123456789abcdef")] [] [].

Definition scratch : string := "/tmp/tfjs_convert_k3x9q0ab".

(** The scratch directory at the moment the loader is called. *)
Definition staged : gmap string node :=
  <[ "/tmp/tfjs_convert_k3x9q0ab/model.json" := File (dumps patched_topology) ]>
    (<[ "/tmp/tfjs_convert_k3x9q0ab/weights.bin" := File "0123456789abcdef" ]>
       (<[ scratch := Dir ]> ∅)).

(** The handler on a request arriving at an empty file system. *)
Definition run (env : Env string) (req : Request)
  : result Response * State string :=
  convert_model env req (arrive ∅).

End Demo.


(** * Vocabulary of the properties *)

Section Vocabulary.

Context {Model : Type}.
Implicit Types (env : Env Model) (st : State Model) (req : Request).

(** [wp m Q X st]: running [m] from [st] ends in a state satisfying [Q]
    when it returns and [X] when it raises. *)
Definition wp {A} (m : M Model A) (Q : A -> State Model -> Prop)
  (X : exn -> State Model -> Prop) (st : State Model) : Prop :=
  match m st with
  | (inr a, st') => Q a st'
  | (inl e, st') => X e st'
  end.

(** An entry of the manifest after [entry['paths'] = ['weights.bin']]. *)
Definition repoint (entry : list (string * json)) : json :=
  JDict (dict_set "paths" weights_paths entry).

(** The file-system calls up to the call of the loader. *)
Definition staging_sites : list site :=
  [AtMkdtemp; AtSaveModelJson; AtSaveWeights; AtOpenModelJson;
   AtRewriteModelJson; AtGetsize].

Definition manifest_entries (cfg : json) : result (list json) :=
  rbind (py_getitem "weightsManifest" cfg) py_iter.

(** [new] is [old] after [old['paths'] = ['weights.bin']]. *)
Definition repointed (old new : json) : Prop :=
  py_setitem "paths" weights_paths old = inr new.

Definition points_at_weights (entry : json) : Prop :=
  py_getitem "paths" entry = inr weights_paths.

Definition configured_for (quantize : bool) (c : Converter Model) : Prop :=
  optimizations c = (if quantize then Some [OptimizeDEFAULT] else None) /\
  supported_types c = (if quantize then Some [DTfloat16] else None).

(** Every converter handed to [convert] so far is configured as the flag
    says. *)
Definition converters_ok (q : bool) (st : State Model) : Prop :=
  forall c, In (EvConvert c) (events st) -> configured_for q c.

(** What the file system holds, at the path handed to the loader, when
    the loader is called. *)
Definition load_spec env req (f seen : gmap string node) (path : string) : Prop :=
  exists tmp upload text cfg,
    first_free f (tempdir env) "tfjs_convert_" (tmp_names env) = Some tmp /\
    path = os_path_join tmp "model.json" /\
    multi_get "model_json" (files req) = Some upload /\
    decode_text env upload = inr text /\
    json_loads env text = inr cfg /\
    (py_contains "weightsManifest" cfg = inr true ->
     exists cfg', patch_manifest cfg = inr cfg' /\
       seen !! path = Some (File (json_dumps env cfg'))) /\
    (py_contains "weightsManifest" cfg = inr false ->
     seen !! path = Some (File upload)).

Definition loads_ok env req f (st : State Model) : Prop :=
  forall seen path,
    In (EvLoad seen path) (events st) -> load_spec env req f seen path.

(** The exception of the first import that raises. *)
Definition import_error env : option exn :=
  match import_tensorflow env with
  | inl e => Some e
  | inr _ =>
      match import_tensorflowjs env with
      | inl e => Some e
      | inr _ => None
      end
  end.

(** The metadata field either parses or is rejected as malformed. *)
Definition metadata_parses env req : Prop :=
  match json_loads env (multi_get_default "metadata" "{}" (form req)) with
  | inr _ => True
  | inl e => Exc.isinstance e Exc.JSONDecodeError = true
  end.

(** The calls into the two libraries made so far have all returned. *)
Definition calls_returned env (st : State Model) : Prop :=
  (forall seen path e,
      In (EvLoad seen path) (events st) ->
      load_keras_model env seen path = inl e -> False) /\
  (forall c e,
      In (EvConvert c) (events st) -> convert env c = inl e -> False).

(** [e] is what the one library call that raised has raised. *)
Definition call_raised env (e : exn) (st : State Model) : Prop :=
  (forall seen path e',
      In (EvLoad seen path) (events st) ->
      load_keras_model env seen path = inl e' -> e' = e) /\
  (forall c e',
      In (EvConvert c) (events st) -> convert env c = inl e' -> e' = e).

(** Once [tmp_dir] is assigned it names a directory that exists. *)
Definition scratch_ok (st : State Model) : Prop :=
  forall d, tmp_dir st = Some d -> d <> "" /\ is_Some (fs st !! d).

End Vocabulary.

(** ** Further concrete situations *)

Module Scenario.

(** [json.loads] that also knows the empty list. *)
Definition loads (s : string) : result json :=
  if String.eqb s "[]" then inr (JList []) else Demo.loads s.

Definition env : Env string :=
  {| import_tensorflow := import_tensorflow Demo.env;
     import_tensorflowjs := import_tensorflowjs Demo.env;
     parse_form_data := parse_form_data Demo.env;
     json_loads := loads;
     json_dumps := json_dumps Demo.env;
     decode_text := decode_text Demo.env;
     tempdir := tempdir Demo.env;
     tmp_names := tmp_names Demo.env;
     fault := fault Demo.env;
     load_keras_model := load_keras_model Demo.env;
     model_summary := model_summary Demo.env;
     from_keras_model := from_keras_model Demo.env;
     convert := convert Demo.env |}.

(** The topology part is a JSON list. *)
Definition request_list_topology : Request :=
  mkRequest [("model_json", "[]"); ("weights_bin", "")] [] [].

(** tensorflow is installed but its import fails half way. *)
Definition broken : exn :=
  Exc.mk Exc.AttributeError "module 'numpy' has no attribute 'object'".

Definition env_broken : Env string :=
  Demo.installed (inl broken) (inr "4.17.0") Demo.no_fault.

(** A file system with something in it. *)
Definition disk : gmap string node :=
  <[ "/data/keep.txt" := File "precious" ]> (<[ "/data" := Dir ]> ∅).

(** No file part and 1001 form fields: more parts than the parser
    takes. *)
Definition request_too_many_fields : Request :=
  mkRequest [] (repeat ("field", "") 1001) [].

(** The converter of a plain request of the examples. *)
Definition plain_converter : Converter string :=
  mkConverter (Demo.dumps Demo.patched_topology) None None.

End Scenario.

(** * Further vocabulary *)

Section FurtherVocabulary.

Context {Model : Type}.
Implicit Types (env : Env Model) (st : State Model) (req : Request).

(** A JSON value that [json.load] built as a dict. *)
Definition is_object (v : json) : Prop := exists d, v = JDict d.

(** The answer on the success path: what [send_file] builds from the
    bytes of [model.tflite]. *)
Definition tflite_response (bytes : string) : Response :=
  mkResponse 200 (FileBody bytes "application/octet-stream" "model.tflite").

(** The answers the [try] body can return, with the state they go with:
    the two upload errors, the missing-dependency error, and the output of
    a conversion that took place. *)
Definition answer_ok env (r : Response) (st : State Model) : Prop :=
  r = error_response 400 "Missing model_json file" \/
  r = error_response 400 "Missing weights_bin file" \/
  (exists e, r = missing_dependency e) \/
  (exists c bytes,
      In (EvConvert c) (events st) /\ convert env c = inr bytes /\
      r = tflite_response bytes).

(** The converter was built from a model the loader returned and
    [model.summary()] accepted. *)
Definition converted_from_loaded env (st : State Model) : Prop :=
  forall c,
    In (EvConvert c) (events st) ->
    exists seen path,
      In (EvLoad seen path) (events st) /\
      load_keras_model env seen path = inr (conv_model c) /\
      model_summary env (conv_model c) = None /\
      from_keras_model env (conv_model c) = None.

Definition no_traceback (st : State Model) : Prop :=
  forall e, ~ In (EvTraceback e) (events st).

Definition no_load (st : State Model) : Prop :=
  forall seen path, ~ In (EvLoad seen path) (events st).

(** The scratch directory as the loader finds it: a directory holding the
    uploaded weights under [weights.bin]. *)
Definition weights_staged env req (f : gmap string node) (st : State Model) : Prop :=
  forall seen path,
    In (EvLoad seen path) (events st) ->
    exists tmp weights,
      first_free f (tempdir env) "tfjs_convert_" (tmp_names env) = Some tmp /\
      multi_get "weights_bin" (files req) = Some weights /\
      seen !! tmp = Some Dir /\
      seen !! os_path_join tmp "weights.bin" = Some (File weights).

(** What the handler has done to the file system [f] it started from:
    nothing before the scratch directory exists; afterwards the directory
    is a path that was free, named after one of the candidates, and every
    path other than the directory and the three files staged in it reads
    as in [f]. *)
Definition only_scratch_written env (f : gmap string node) (st : State Model)
  : Prop :=
  match tmp_dir st with
  | None => fs st = f
  | Some d =>
      f !! d = None /\
      (exists n, In n (tmp_names env) /\
                 d = os_path_join (tempdir env) ("tfjs_convert_" +:+ n)) /\
      forall p,
        p <> d -> p <> os_path_join d "model.json" ->
        p <> os_path_join d "weights.bin" ->
        p <> os_path_join d "model.tflite" ->
        fs st !! p = f !! p
  end.

(** The first import, in the order of the source, that raises something
    other than ImportError; a library that raises ImportError does not
    stop the next one from being tried. *)
Definition first_crash env : option exn :=
  match import_tensorflow env with
  | inl e =>
      if Exc.isinstance e Exc.ImportError then
        match import_tensorflowjs env with
        | inl e' => if Exc.isinstance e' Exc.ImportError then None else Some e'
        | inr _ => None
        end
      else Some e
  | inr _ =>
      match import_tensorflowjs env with
      | inl e' => if Exc.isinstance e' Exc.ImportError then None else Some e'
      | inr _ => None
      end
  end.

(** Some library is reported missing at startup. *)
Definition some_missing env : Prop :=
  (exists e, import_tensorflow env = inl e) \/
  (exists e, import_tensorflowjs env = inl e).

(** What the lines printed so far say is true of the request: the size
    of the weights is the size of the upload, the flag is the flag of the
    request, the float16 line appears only under the flag, and the size of
    the model is the size of what the converter returned. *)
Definition log_accurate env req (st : State Model) : Prop :=
  (forall n,
      In (EvPrint (LogWeightsSize n)) (events st) ->
      exists weights,
        multi_get "weights_bin" (files req) = Some weights /\
        n = String.length weights) /\
  (forall q, In (EvPrint (LogConverting q)) (events st) -> q = quantize_flag req) /\
  (In (EvPrint LogFloat16) (events st) -> quantize_flag req = true) /\
  (forall n,
      In (EvPrint (LogModelSize n)) (events st) ->
      exists c bytes,
        In (EvConvert c) (events st) /\ convert env c = inr bytes /\
        n = String.length bytes).

(** The number of calls of the loader and of the converter in a log. *)
Definition is_load (ev : event Model) : bool :=
  match ev with EvLoad _ _ => true | _ => false end.

Definition is_convert (ev : event Model) : bool :=
  match ev with EvConvert _ => true | _ => false end.

Definition count_calls (which : event Model -> bool) (l : list (event Model))
  : nat :=
  length (List.filter which l).

Definition called_at_most_once (st : State Model) : Prop :=
  (count_calls is_load (events st) <= 1)%nat /\
  (count_calls is_convert (events st) <= count_calls is_load (events st))%nat.

End FurtherVocabulary.

(** * Properties *)

Section Control.

Context {Model : Type}.
Implicit Types (env : Env Model) (st : State Model) (req : Request).

(** Every exception of the model derives from [Exception]. *)
Lemma isinstance_Exception (e : exn) : Exc.isinstance e Exc.Exception = true.
Proof. destruct e as [c s]. destruct c; reflexivity. Qed.

(** The cleanup never raises and leaves the log and the locals alone. *)
Lemma convert_finally_quiet env st :
  exists f, convert_finally env st = (inr tt, mkState f (events st) (tmp_dir st)).
Proof.
  destruct st as [f ev t]. unfold convert_finally, bind, get_tmp_dir, get_fs; simpl.
  destruct t as [d|]; [|by eexists].
  destruct (negb (String.eqb d "") && path_exists f d); [|by eexists].
  unfold try_except, rmtree, bind, check_fault; simpl.
  destruct (fault env AtRmtree) as [e|]; simpl.
  - rewrite isinstance_Exception. by eexists.
  - by eexists.
Qed.

(** The handler as a function of what the [try] body does. *)
Lemma convert_model_eq env req st :
  convert_model env req st =
  match convert_try env req (mkState (fs st) (events st) None) with
  | (inr r, st1) => (inr r, snd (convert_finally env st1))
  | (inl e, st1) =>
      (inr (error_response 500 (Exc.str e)),
       snd (convert_finally env
              (mkState (fs st1) (events st1 ++ [EvTraceback e]) (tmp_dir st1))))
  end.
Proof.
  unfold convert_model, bind, set_tmp_dir, try_finally, try_except; simpl.
  destruct (convert_try env req _) as [[e|r] st1].
  - rewrite isinstance_Exception. unfold convert_except, bind, emit, ret; simpl.
    destruct (convert_finally_quiet env
                (mkState (fs st1) (events st1 ++ [EvTraceback e]) (tmp_dir st1)))
      as [f ->]. reflexivity.
  - destruct (convert_finally_quiet env st1) as [f ->]. reflexivity.
Qed.

End Control.

(** ** Reasoning about a run of the monad *)

Section Wp.

Context {Model : Type}.
Implicit Types (env : Env Model) (st : State Model).

Lemma wp_ret {A} (a : A) Q X st : Q a st -> wp (ret a) Q X st.
Proof. exact (fun H => H). Qed.

Lemma wp_raise {A} (e : exn) (Q : A -> _) X st : X e st -> wp (raise e) Q X st.
Proof. exact (fun H => H). Qed.

Lemma wp_bind {A B} (m : M Model A) (k : A -> M Model B) Q X st :
  wp m (fun a st' => wp (k a) Q X st') X st -> wp (bind m k) Q X st.
Proof. unfold wp, bind. destruct (m st) as [[e|a] st']; exact (fun H => H). Qed.

Lemma wp_lift {A} (r : result A) Q X st :
  match r with inr a => Q a st | inl e => X e st end -> wp (lift r) Q X st.
Proof. unfold wp, lift. destruct r; exact (fun H => H). Qed.

Lemma wp_emit (ev : event Model) Q X st :
  Q tt (mkState (fs st) (events st ++ [ev]) (tmp_dir st)) -> wp (emit ev) Q X st.
Proof. exact (fun H => H). Qed.

Lemma wp_set_fs f Q X st :
  Q tt (mkState f (events st) (tmp_dir st)) -> wp (set_fs f) Q X st.
Proof. exact (fun H => H). Qed.

Lemma wp_set_tmp_dir d Q X st :
  Q tt (mkState (fs st) (events st) d) -> wp (set_tmp_dir d) Q X st.
Proof. exact (fun H => H). Qed.

Lemma wp_get_fs Q X st : Q (fs st) st -> wp get_fs Q X st.
Proof. exact (fun H => H). Qed.

Lemma wp_get_tmp_dir Q X st : Q (tmp_dir st) st -> wp get_tmp_dir Q X st.
Proof. exact (fun H => H). Qed.

Lemma wp_check_fault env s Q X st :
  match fault env s with Some e => X e st | None => Q tt st end ->
  wp (check_fault env s) Q X st.
Proof. unfold wp, check_fault. destruct (fault env s); exact (fun H => H). Qed.

Lemma wp_try_except {A} (m : M Model A) c h Q X st :
  wp m Q (fun e st' => if Exc.isinstance e c then wp (h e) Q X st' else X e st') st ->
  wp (try_except m c h) Q X st.
Proof.
  unfold wp, try_except. destruct (m st) as [[e|a] st']; [|exact (fun H => H)].
  destruct (Exc.isinstance e c); exact (fun H => H).
Qed.

End Wp.

(** One step of symbolic execution: the rule of the construct at the head
    of the program, or a case split on the value the program branches on. *)
Ltac wp_step :=
  lazymatch goal with
  | |- wp (bind _ _) _ _ _ => apply wp_bind
  | |- wp (ret _) _ _ _ => apply wp_ret
  | |- wp (raise _) _ _ _ => apply wp_raise
  | |- wp (lift _) _ _ _ => apply wp_lift
  | |- wp (emit _) _ _ _ => apply wp_emit
  | |- wp (set_fs _) _ _ _ => apply wp_set_fs
  | |- wp (set_tmp_dir _) _ _ _ => apply wp_set_tmp_dir
  | |- wp get_fs _ _ _ => apply wp_get_fs
  | |- wp get_tmp_dir _ _ _ => apply wp_get_tmp_dir
  | |- wp (check_fault _ _) _ _ _ => apply wp_check_fault
  | |- wp (try_except _ _ _) _ _ _ => apply wp_try_except
  | |- wp (match ?x with _ => _ end) _ _ _ =>
      let E := fresh "E" in destruct x eqn:E
  | |- wp (if ?x then _ else _) _ _ _ =>
      let E := fresh "E" in destruct x eqn:E
  | |- match ?x with _ => _ end =>
      let E := fresh "E" in destruct x eqn:E
  | |- if ?x then _ else _ =>
      let E := fresh "E" in destruct x eqn:E
  end; cbn [fs events tmp_dir conv_model optimizations supported_types].

Ltac unfold_handler :=
  unfold convert_try, convert_staged, lazy_imports, parse_metadata,
    load_form_data, files_getitem, fix_manifest, make_converter, send_file,
    mkdtemp, write_file, read_file, getsize, rmtree.


(** ** The manifest patch *)

Section Manifest.

Lemma dict_get_set k v d : dict_get k (dict_set k v d) = Some v.
Proof.
  induction d as [|[k' v'] d IH]; simpl.
  - by rewrite String.eqb_refl.
  - destruct (String.eqb k k') eqn:E; simpl; rewrite E; [reflexivity|exact IH].
Qed.

Lemma rmap_list_Forall2 {A B} (f : A -> result B) l l' :
  rmap_list f l = inr l' -> Forall2 (fun a b => f a = inr b) l l'.
Proof.
  revert l'. induction l as [|x l IH]; simpl; intros l' H.
  - injection H as <-. constructor.
  - destruct (f x) as [e|y] eqn:Ex; simpl in H; [discriminate|].
    destruct (rmap_list f l) as [e|ys]; simpl in H; [discriminate|].
    injection H as <-. constructor; [exact Ex|by apply IH].
Qed.

Lemma repointed_points old new : repointed old new -> points_at_weights new.
Proof.
  unfold repointed, points_at_weights.
  destruct old; simpl; try discriminate.
  intros [= <-]. simpl. by rewrite dict_get_set.
Qed.

(** What the loop of lines 82-83 leaves behind when it runs to its end:
    the manifest has the same entries, each with its [paths] assigned. *)
Lemma patch_manifest_entries cfg cfg' :
  patch_manifest cfg = inr cfg' ->
  exists entries entries',
    manifest_entries cfg = inr entries /\
    manifest_entries cfg' = inr entries' /\
    Forall2 repointed entries entries'.
Proof.
  unfold patch_manifest, manifest_entries.
  destruct (py_getitem "weightsManifest" cfg) as [e|manifests] eqn:Eg;
    simpl; [discriminate|].
  destruct (py_iter manifests) as [e|items] eqn:Ei; simpl; [discriminate|].
  destruct (rmap_list _ items) as [e|items'] eqn:Em; simpl; [discriminate|].
  apply rmap_list_Forall2 in Em.
  destruct cfg; try (simpl in Eg; discriminate Eg).
  destruct manifests; try (simpl in Ei; discriminate Ei);
    intros H; cbn [rbind] in H; injection H as <-;
    exists items, items'; cbn [rbind]; rewrite ?Eg; cbn [rbind];
    (split; [first [exact Ei|reflexivity]|]); (split; [|exact Em]).
  - (* a str: the loop body raises unless the str is empty *)
    rewrite Ei. f_equal.
    simpl in Ei. injection Ei as <-. destruct s as [|c s]; simpl in Em.
    + by inversion Em.
    + inversion Em as [|? ? ? ? Hc]. discriminate Hc.
  - (* a list of entries *)
    simpl. by rewrite dict_get_set.
  - (* a dict: the loop body raises unless the dict is empty *)
    rewrite Ei. f_equal.
    simpl in Ei. injection Ei as <-. destruct entries0 as [|kv d]; simpl in Em.
    + by inversion Em.
    + inversion Em as [|? ? ? ? Hc]. discriminate Hc.
Qed.

(** A manifest that is a list of objects is patched entry by entry. *)
Lemma rmap_list_setitem_dicts (entries : list (list (string * json))) :
  rmap_list (py_setitem "paths" weights_paths) (map JDict entries) =
  inr (map repoint entries).
Proof.
  induction entries as [|e entries IH]; [reflexivity|].
  cbn [map rmap_list]. rewrite IH. reflexivity.
Qed.

Lemma patch_manifest_list d entries :
  dict_get "weightsManifest" d = Some (JList (map JDict entries)) ->
  patch_manifest (JDict d) =
  inr (JDict (dict_set "weightsManifest" (JList (map repoint entries)) d)).
Proof.
  intros H. unfold patch_manifest, py_getitem. rewrite H. cbn [rbind py_iter].
  rewrite rmap_list_setitem_dicts. reflexivity.
Qed.

Lemma patch_manifest_dict cfg cfg' :
  patch_manifest cfg = inr cfg' -> exists d, cfg' = JDict d.
Proof.
  unfold patch_manifest.
  destruct cfg; try (cbn; discriminate).
  destruct (py_getitem _ _) as [e|m]; cbn [rbind]; [discriminate|].
  destruct (py_iter m) as [e|items]; cbn [rbind]; [discriminate|].
  destruct (rmap_list _ items) as [e|items']; cbn [rbind]; [discriminate|].
  destruct m; intros [= <-]; eauto.
Qed.

Lemma topology_keys_dict d : exists keys, topology_keys (JDict d) = inr keys.
Proof.
  unfold topology_keys. destruct (dict_get "modelTopology" d) as [[]|]; eauto.
Qed.

Lemma string_app_cancel (a x y : string) : a +:+ x = a +:+ y -> x = y.
Proof. induction a as [|c a IH]; simpl; [done|]. intros [= H]. by apply IH. Qed.

Lemma staged_paths_differ d :
  os_path_join d "model.json" <> os_path_join d "weights.bin".
Proof.
  unfold os_path_join. simpl.
  destruct (String.eqb d "" || ends_with_slash d); intros H;
    apply string_app_cancel in H; discriminate.
Qed.

End Manifest.

(** Symbolic execution along the path the hypotheses select: a branch is
    decided by a hypothesis about the value branched on when there is one. *)
Ltac decide_branch x :=
  first
    [ match goal with H : x = _ |- _ => rewrite H end
    | rewrite lookup_insert_eq
    | rewrite lookup_insert_ne
        by first [apply staged_paths_differ|apply not_eq_sym, staged_paths_differ]
    | let E := fresh "E" in destruct x eqn:E ].

Ltac wp_step_knowing :=
  lazymatch goal with
  | |- wp (match ?x with _ => _ end) _ _ _ => decide_branch x
  | |- wp (if ?x then _ else _) _ _ _ => decide_branch x
  | |- match ?x with _ => _ end => decide_branch x
  | |- if ?x then _ else _ => decide_branch x
  | _ => wp_step
  end; cbv beta iota;
  cbn [fs events tmp_dir conv_model optimizations supported_types].

Section Conversion.

Context {Model : Type}.
Implicit Types (env : Env Model) (st : State Model) (req : Request).

Lemma convert_finally_events env st :
  events (snd (convert_finally env st)) = events st.
Proof. destruct (convert_finally_quiet env st) as [f ->]. reflexivity. Qed.

Lemma convert_model_events env req st :
  events (snd (convert_model env req st)) =
  match convert_try env req (mkState (fs st) (events st) None) with
  | (inr _, st1) => events st1
  | (inl e, st1) => (events st1 ++ [EvTraceback e])%list
  end.
Proof.
  rewrite convert_model_eq.
  destruct (convert_try env req _) as [[e|r] st1]; simpl;
    by rewrite convert_finally_events.
Qed.

Lemma convert_try_converters env req f :
  wp (convert_try env req) (fun _ => converters_ok (quantize_flag req))
    (fun _ => converters_ok (quantize_flag req)) (arrive f).
Proof.
  unfold arrive. unfold_handler.
  repeat wp_step.
  all: intros c Hin; cbn [events app In] in Hin.
  all: repeat (destruct Hin as [Hin|Hin]; try discriminate Hin);
    try contradiction.
  all: injection Hin as <-; split; reflexivity.
Qed.

(** C2. Every converter the handler hands to [convert] carries the
    precision-reduction configuration exactly when the quantize flag of
    the request is set: with the flag, [optimizations] is
    [[Optimize.DEFAULT]] and [supported_types] is [[float16]]; without
    it, the handler assigned neither attribute. *)
Theorem quantize_configures_converter env req f (c : Converter Model) :
  In (EvConvert c) (events (snd (convert_model env req (arrive f)))) ->
  optimizations c = (if quantize_flag req then Some [OptimizeDEFAULT] else None) /\
  supported_types c = (if quantize_flag req then Some [DTfloat16] else None).
Proof.
  rewrite convert_model_events. intros Hin.
  pose proof (convert_try_converters env req f) as Hwp.
  unfold wp, arrive in Hwp. cbn [fs events] in Hin.
  destruct (convert_try env req _) as [[e|r] st1]; [|exact (Hwp c Hin)].
  apply in_app_iff in Hin as [Hin|[Hin|[]]]; [exact (Hwp c Hin)|discriminate].
Qed.


Lemma convert_try_loads env req f :
  wp (convert_try env req) (fun _ => loads_ok env req f)
    (fun _ => loads_ok env req f) (arrive f).
Proof.
  unfold arrive. unfold_handler.
  repeat wp_step.
  all: intros seen path Hin; cbn [events app In] in Hin.
  all: repeat (destruct Hin as [Hin|Hin]; try discriminate Hin);
    try contradiction.
  all: injection Hin as <- <-.
  all: match goal with
       | H : <[_:=_]> (<[_:=File ?up]> _) !! _ = Some (File ?c) |- _ =>
           rewrite lookup_insert_ne in H by (apply not_eq_sym, staged_paths_differ);
           rewrite lookup_insert_eq in H; injection H as <-
       end.
  all: eexists _, _, _, _; repeat split; try eassumption.
  all: match goal with
       | H : py_contains _ _ = _ |- _ => rewrite H; intros [=]
       end.
  all: try (eexists; split; [eassumption|apply lookup_insert_eq]).
  all: rewrite lookup_insert_ne by (apply not_eq_sym, staged_paths_differ);
    apply lookup_insert_eq.
Qed.

Lemma convert_try_reaches_loader env req f v1 v2 mj wb tmp text cfg cfg' :
  import_tensorflow env = inr v1 ->
  import_tensorflowjs env = inr v2 ->
  parse_form_data env req = None ->
  multi_get "model_json" (files req) = Some mj ->
  multi_get "weights_bin" (files req) = Some wb ->
  metadata_parses env req ->
  (forall s, In s staging_sites -> fault env s = None) ->
  first_free f (tempdir env) "tfjs_convert_" (tmp_names env) = Some tmp ->
  decode_text env mj = inr text ->
  json_loads env text = inr cfg ->
  py_contains "weightsManifest" cfg = inr true ->
  patch_manifest cfg = inr cfg' ->
  let reached st :=
    exists seen,
      In (EvLoad seen (os_path_join tmp "model.json")) (events st) /\
      seen !! os_path_join tmp "model.json" = Some (File (json_dumps env cfg')) in
  wp (convert_try env req) (fun _ => reached) (fun _ => reached) (arrive f).
Proof.
  intros H1 H2 Hparse Hmj Hwb Hmd Hfault Hfree Hdec Hloads Hhas Hpatch reached.
  destruct (patch_manifest_dict _ _ Hpatch) as [d' ->].
  destruct (topology_keys_dict d') as [keys Hkeys].
  assert (fault env AtMkdtemp = None) as F1 by (apply Hfault; cbn; tauto).
  assert (fault env AtSaveModelJson = None) as F2 by (apply Hfault; cbn; tauto).
  assert (fault env AtSaveWeights = None) as F3 by (apply Hfault; cbn; tauto).
  assert (fault env AtOpenModelJson = None) as F4 by (apply Hfault; cbn; tauto).
  assert (fault env AtRewriteModelJson = None) as F5 by (apply Hfault; cbn; tauto).
  assert (fault env AtGetsize = None) as F6 by (apply Hfault; cbn; tauto).
  clear Hfault. unfold metadata_parses in Hmd.
  unfold arrive. unfold_handler. unfold multi_mem. rewrite Hmj, Hwb.
  rewrite !bool_decide_eq_true_2 by eauto. cbn [negb].
  repeat wp_step_knowing.
  all: eexists; (split; [cbn [events app In]; do 3 right; left; reflexivity|]).
  all: apply lookup_insert_eq.
Qed.

Lemma loader_call_spec env req f seen path :
  In (EvLoad seen path) (events (snd (convert_model env req (arrive f)))) ->
  load_spec env req f seen path.
Proof.
  rewrite convert_model_events. intros Hin.
  pose proof (convert_try_loads env req f) as Hwp.
  unfold wp, arrive in Hwp. cbn [fs events] in Hin.
  destruct (convert_try env req _) as [[e|r] st1]; [|exact (Hwp _ _ Hin)].
  apply in_app_iff in Hin as [Hin|[Hin|[]]]; [exact (Hwp _ _ Hin)|discriminate].
Qed.

(** C3. (1) When the external loader is called on [path], that path is
    [model.json] in the scratch directory, the uploaded topology has been
    parsed and, if it contains [weightsManifest], the file at [path]
    already holds the dump of the patched topology: the manifest has the
    entries of the upload, each with its [paths] assigned the
    one-element list [['weights.bin']].  A topology without the field
    reaches the loader as uploaded.  (2) The loader is called, on such a
    file, for every upload whose topology is an object with a
    [weightsManifest] list of objects, provided the steps before the
    call do not fail: both libraries import, the multipart body parses,
    both parts are uploaded, the metadata parses or is malformed, a
    scratch name is free and no file-system call up to the loader
    raises. *)
Theorem loader_sees_patched_manifest env req f :
  (forall seen path,
      In (EvLoad seen path) (events (snd (convert_model env req (arrive f)))) ->
      exists tmp upload text cfg,
        first_free f (tempdir env) "tfjs_convert_" (tmp_names env) = Some tmp /\
        path = os_path_join tmp "model.json" /\
        multi_get "model_json" (files req) = Some upload /\
        decode_text env upload = inr text /\
        json_loads env text = inr cfg /\
        (py_contains "weightsManifest" cfg = inr true ->
         exists cfg' entries entries',
           patch_manifest cfg = inr cfg' /\
           manifest_entries cfg = inr entries /\
           manifest_entries cfg' = inr entries' /\
           Forall2 repointed entries entries' /\
           Forall points_at_weights entries' /\
           seen !! path = Some (File (json_dumps env cfg'))) /\
        (py_contains "weightsManifest" cfg = inr false ->
         seen !! path = Some (File upload))) /\
  (forall v1 v2 upload weights tmp text d entries,
      import_tensorflow env = inr v1 ->
      import_tensorflowjs env = inr v2 ->
      parse_form_data env req = None ->
      multi_get "model_json" (files req) = Some upload ->
      multi_get "weights_bin" (files req) = Some weights ->
      metadata_parses env req ->
      (forall s, In s staging_sites -> fault env s = None) ->
      first_free f (tempdir env) "tfjs_convert_" (tmp_names env) = Some tmp ->
      decode_text env upload = inr text ->
      json_loads env text = inr (JDict d) ->
      dict_get "weightsManifest" d = Some (JList (map JDict entries)) ->
      exists seen,
        In (EvLoad seen (os_path_join tmp "model.json"))
          (events (snd (convert_model env req (arrive f)))) /\
        seen !! os_path_join tmp "model.json" =
        Some (File (json_dumps env
                      (JDict (dict_set "weightsManifest"
                                (JList (map repoint entries)) d))))).
Proof.
  split.
  - intros seen path Hin.
    destruct (loader_call_spec env req f seen path Hin)
      as (tmp & upload & text & cfg & Hf & Hpath & Hu & Ht & Hc & Hy & Hn).
    exists tmp, upload, text, cfg. repeat split; try assumption.
    intros Hhas. destruct (Hy Hhas) as (cfg' & Hp & Hseen).
    destruct (patch_manifest_entries _ _ Hp) as (entries & entries' & He & He' & H2).
    exists cfg', entries, entries'. repeat split; try assumption.
    clear -H2. induction H2; constructor; eauto using repointed_points.
  - intros v1 v2 upload weights tmp text d entries H1 H2 Hparse Hu Hw Hmd Hfault
      Hfree Hdec Hloads Hman.
    assert (py_contains "weightsManifest" (JDict d) = inr true) as Hhas.
    { unfold py_contains. rewrite Hman. by rewrite bool_decide_eq_true_2. }
    pose proof (convert_try_reaches_loader env req f _ _ _ _ _ _ _ _
                  H1 H2 Hparse Hu Hw Hmd Hfault Hfree Hdec Hloads Hhas
                  (patch_manifest_list d entries Hman)) as Hwp.
    rewrite convert_model_events. unfold wp in Hwp. cbn [arrive fs events].
    fold (@arrive Model f).
    destruct (convert_try env req (arrive f)) as [[e|r] st1];
      destruct Hwp as (seen & Hin & Hseen); exists seen; (split; [|exact Hseen]).
    + apply in_app_iff. by left.
    + exact Hin.
Qed.

(** *** The early exits *)

Lemma lazy_imports_run env st :
  lazy_imports env st =
  match import_error env with
  | None => (inr None, st)
  | Some e =>
      if Exc.isinstance e Exc.ImportError
      then (inr (Some (missing_dependency e)), st)
      else (inl e, st)
  end.
Proof.
  unfold lazy_imports, import_error, try_except, bind, lift, ret.
  destruct (import_tensorflow env) as [e|v]; [reflexivity|].
  destruct (import_tensorflowjs env) as [e|v']; reflexivity.
Qed.

(** Past the imports and the parse of the body. *)
Lemma convert_try_parsed env req st :
  import_error env = None ->
  parse_form_data env req = None ->
  convert_try env req st =
  (if negb (multi_mem "model_json" (files req)) then
     ret (error_response 400 "Missing model_json file")
   else if negb (multi_mem "weights_bin" (files req)) then
     ret (error_response 400 "Missing weights_bin file")
   else
     let* model_json_file := files_getitem "model_json" req in
     let* weights_bin_file := files_getitem "weights_bin" req in
     let* metadata :=
       parse_metadata env (multi_get_default "metadata" "{}" (form req)) in
     convert_staged env model_json_file weights_bin_file (quantize_flag req)) st.
Proof.
  intros Hi Hp. unfold convert_try. unfold bind at 1. rewrite lazy_imports_run, Hi.
  unfold bind at 1. unfold load_form_data. rewrite Hp. reflexivity.
Qed.

Lemma convert_finally_no_scratch env f ev :
  convert_finally env (mkState f ev None) = (inr tt, mkState f ev None).
Proof. reflexivity. Qed.

(** C10, as the code has it.  While tensorflow or tensorflowjs cannot
    be imported, the handler answers 500 whatever the request holds, and
    never 400, and leaves the file system alone.  When the import raised
    an ImportError the body is the missing-dependency message and nothing
    was printed, staged or converted; when it raised anything else the
    body is the string of that exception. *)
Theorem dependency_check_precedes_validation env req st e :
  import_error env = Some e ->
  exists resp st',
    convert_model env req st = (inr resp, st') /\
    status resp = 500%Z /\
    fs st' = fs st /\
    (Exc.isinstance e Exc.ImportError = true ->
     resp = error_response 500
              ("Missing dependency: " +:+ Exc.str e
               +:+ ". Install with: pip install tensorflow tensorflowjs") /\
     st' = mkState (fs st) (events st) None) /\
    (Exc.isinstance e Exc.ImportError = false ->
     resp = error_response 500 (Exc.str e)).
Proof.
  intros He. rewrite convert_model_eq.
  unfold convert_try at 1. unfold bind at 1. rewrite lazy_imports_run, He.
  destruct (Exc.isinstance e Exc.ImportError) eqn:Ei;
    cbn [ret fs events tmp_dir]; rewrite convert_finally_no_scratch;
    (eexists _, _; split; [reflexivity|]); cbn [snd status error_response fs].
  - repeat split; try reflexivity; discriminate.
  - repeat split; try reflexivity; discriminate.
Qed.

(** C1, as the code has it.  While both libraries import and the
    multipart body of the request parses, a request without the
    [model_json] part is answered 400 with the message naming model_json,
    and a request with [model_json] but without [weights_bin] is answered
    400 with the message naming weights_bin; in both cases the file system
    and the log are untouched: no scratch directory, no conversion. *)
Theorem missing_upload_rejected env req st v1 v2 :
  import_tensorflow env = inr v1 ->
  import_tensorflowjs env = inr v2 ->
  parse_form_data env req = None ->
  (multi_mem "model_json" (files req) = false ->
   convert_model env req st =
   (inr (error_response 400 "Missing model_json file"),
    mkState (fs st) (events st) None)) /\
  (multi_mem "model_json" (files req) = true ->
   multi_mem "weights_bin" (files req) = false ->
   convert_model env req st =
   (inr (error_response 400 "Missing weights_bin file"),
    mkState (fs st) (events st) None)).
Proof.
  intros H1 H2 Hparse.
  assert (import_error env = None) as Hi by (unfold import_error; by rewrite H1, H2).
  split; [intros Hm|intros Hm Hw]; rewrite convert_model_eq;
    rewrite (convert_try_parsed env req _ Hi Hparse), Hm;
    cbn [negb]; rewrite ?Hw; cbn [negb ret]; by rewrite convert_finally_no_scratch.
Qed.

(** *** The metadata field *)

Lemma convert_try_staged env req st v1 v2 mj wb j :
  import_tensorflow env = inr v1 ->
  import_tensorflowjs env = inr v2 ->
  parse_form_data env req = None ->
  multi_get "model_json" (files req) = Some mj ->
  multi_get "weights_bin" (files req) = Some wb ->
  parse_metadata env (multi_get_default "metadata" "{}" (form req)) st = (inr j, st) ->
  convert_try env req st = convert_staged env mj wb (quantize_flag req) st.
Proof.
  intros H1 H2 Hparse Hmj Hwb Hp.
  assert (import_error env = None) as Hi by (unfold import_error; by rewrite H1, H2).
  rewrite (convert_try_parsed env req _ Hi Hparse).
  unfold multi_mem. rewrite Hmj, Hwb.
  rewrite !bool_decide_eq_true_2 by eauto. cbn [negb].
  unfold files_getitem. rewrite Hmj, Hwb.
  unfold bind at 1. cbn [ret]. unfold bind at 1. cbn [ret]. unfold bind at 1.
  by rewrite Hp.
Qed.

Lemma parse_metadata_quiet env req st :
  metadata_parses env req ->
  exists j,
    parse_metadata env (multi_get_default "metadata" "{}" (form req)) st = (inr j, st).
Proof.
  unfold metadata_parses, parse_metadata, try_except, lift.
  destruct (json_loads env _) as [e|j]; [intros ->|]; by eexists.
Qed.

Lemma bind_ext {A B} (m : M Model A) (k1 k2 : A -> M Model B) st :
  (forall a st', k1 a st' = k2 a st') -> bind m k1 st = bind m k2 st.
Proof. intros H. unfold bind. destruct (m st) as [[e|a] st']; [reflexivity|apply H]. Qed.

Lemma convert_try_ignores_metadata env req1 req2 st :
  files req1 = files req2 ->
  args req1 = args req2 ->
  parse_form_data env req1 = None ->
  parse_form_data env req2 = None ->
  metadata_parses env req1 ->
  metadata_parses env req2 ->
  convert_try env req1 st = convert_try env req2 st.
Proof.
  intros Hf Ha Hb1 Hb2 Hp1 Hp2.
  unfold convert_try, quantize_flag, files_getitem, load_form_data.
  rewrite Hf, Ha, Hb1, Hb2.
  apply bind_ext. intros [r|] st1; [reflexivity|].
  apply bind_ext. intros _ st1'.
  destruct (negb (multi_mem "model_json" (files req2))); [reflexivity|].
  destruct (negb (multi_mem "weights_bin" (files req2))); [reflexivity|].
  apply bind_ext. intros mj st2. apply bind_ext. intros wb st3.
  unfold bind.
  destruct (parse_metadata_quiet env req1 st3 Hp1) as [j1 ->].
  destruct (parse_metadata_quiet env req2 st3 Hp2) as [j2 ->].
  reflexivity.
Qed.

(** C8, as the code has it.  Two requests with the same uploads and the
    same query arguments, whose multipart bodies both parse and whose
    metadata fields each either parse as JSON or are rejected with
    JSONDecodeError, get the same answer and leave the same file system
    and log behind. *)
Theorem metadata_is_ignored env req1 req2 st :
  files req1 = files req2 ->
  args req1 = args req2 ->
  parse_form_data env req1 = None ->
  parse_form_data env req2 = None ->
  metadata_parses env req1 ->
  metadata_parses env req2 ->
  convert_model env req1 st = convert_model env req2 st.
Proof.
  intros Hf Ha Hb1 Hb2 Hp1 Hp2. rewrite !convert_model_eq.
  by rewrite (convert_try_ignores_metadata env req1 req2 _ Hf Ha Hb1 Hb2 Hp1 Hp2).
Qed.

(** C5, as the code has it.  In a request whose multipart body parses,
    a metadata field that [json.loads] rejects with JSONDecodeError is
    replaced by the empty object, with no other effect, and the request
    goes on.  The handler answers as it answers the same request sent
    without any form field; and once the imports and the upload checks
    are passed, the [try] body does exactly what staging, loading and
    conversion of the two uploads do, steps that see neither the metadata
    nor the parse error. *)
Theorem malformed_metadata_defaults env req st md e :
  parse_form_data env req = None ->
  multi_get "metadata" (form req) = Some md ->
  json_loads env md = inl e ->
  Exc.isinstance e Exc.JSONDecodeError = true ->
  parse_metadata env md st = (inr (JDict []), st) /\
  (forall j,
      json_loads env "{}" = inr j ->
      parse_form_data env (mkRequest (files req) [] (args req)) = None ->
      convert_model env req st =
      convert_model env (mkRequest (files req) [] (args req)) st) /\
  (forall v1 v2 mj wb,
      import_tensorflow env = inr v1 ->
      import_tensorflowjs env = inr v2 ->
      multi_get "model_json" (files req) = Some mj ->
      multi_get "weights_bin" (files req) = Some wb ->
      convert_try env req st = convert_staged env mj wb (quantize_flag req) st).
Proof.
  intros Hparse Hmd Hl He.
  assert (forall s, parse_metadata env md s = (inr (JDict []), s)) as Hp.
  { intros s. unfold parse_metadata, try_except, lift. by rewrite Hl, He. }
  split; [apply Hp|]. split.
  - intros j Hj Hparse'. rewrite !convert_model_eq.
    rewrite (convert_try_ignores_metadata env req
               (mkRequest (files req) [] (args req)) _ eq_refl eq_refl
               Hparse Hparse');
      [reflexivity| |].
    + unfold metadata_parses, multi_get_default. by rewrite Hmd, Hl.
    + unfold metadata_parses. cbn. by rewrite Hj.
  - intros v1 v2 mj wb H1 H2 Hmj Hwb.
    eapply convert_try_staged; eauto.
    unfold multi_get_default. rewrite Hmd. apply Hp.
Qed.


(** *** The catch-all clause *)

Lemma convert_try_calls env req f :
  wp (convert_try env req) (fun _ => calls_returned env) (call_raised env)
    (arrive f).
Proof.
  unfold arrive. unfold_handler.
  repeat wp_step.
  all: split; [intros seen path e' Hin Hc|intros c e' Hin Hc];
    cbn [events app In] in Hin;
    repeat (destruct Hin as [Hin|Hin]; try discriminate Hin);
    try contradiction.
  all: first [injection Hin as <- <-|injection Hin as <-]; congruence.
Qed.

(** C4. The handler always answers and never raises.  Whenever the body
    of its [try] raises an exception [e], at whatever step, the answer is
    status 500 with the JSON object whose one field [error] is [str(e)];
    so it is, in particular, when the loader raised [e] on the staged
    files and when the converter raised [e] on the converter it was
    handed. *)
Theorem exceptions_become_500 env req f :
  exists resp st',
    convert_model env req (arrive f) = (inr resp, st') /\
    (forall e st1,
        convert_try env req (arrive f) = (inl e, st1) ->
        resp = mkResponse 500 (JsonBody (JDict [("error", JStr (Exc.str e))]))) /\
    (forall seen path e,
        In (EvLoad seen path) (events st') ->
        load_keras_model env seen path = inl e ->
        resp = mkResponse 500 (JsonBody (JDict [("error", JStr (Exc.str e))]))) /\
    (forall c e,
        In (EvConvert c) (events st') ->
        convert env c = inl e ->
        resp = mkResponse 500 (JsonBody (JDict [("error", JStr (Exc.str e))]))).
Proof.
  pose proof (convert_model_events env req (arrive f)) as Hev.
  pose proof (convert_try_calls env req f) as Hwp.
  rewrite convert_model_eq in *. unfold wp in Hwp. cbn [arrive fs events] in *.
  fold (@arrive Model f) in *.
  destruct (convert_try env req (arrive f)) as [[e|r] st1];
    eexists _, _; (split; [reflexivity|]); cbn [snd] in Hev; rewrite Hev.
  - destruct Hwp as [Hl Hc]. split; [|split].
    + by intros e' st2 [= <- _].
    + intros seen path e' Hin He'.
      apply in_app_iff in Hin as [Hin|[Hin|[]]]; [|discriminate].
      by rewrite (Hl _ _ _ Hin He').
    + intros c e' Hin He'.
      apply in_app_iff in Hin as [Hin|[Hin|[]]]; [|discriminate].
      by rewrite (Hc _ _ Hin He').
  - destruct Hwp as [Hl Hc]. split; [|split].
    + intros e' st2 [=].
    + intros seen path e' Hin He'. destruct (Hl _ _ _ Hin He').
    + intros c e' Hin He'. destruct (Hc _ _ Hin He').
Qed.

(** *** The scratch directory *)

Lemma os_path_join_nonempty a b : b <> "" -> os_path_join a b <> "".
Proof.
  unfold os_path_join. intros Hb.
  destruct (String.prefix "/" b); [exact Hb|].
  destruct (String.eqb a "" || ends_with_slash a); destruct a;
    cbn [String.append]; first [exact Hb|discriminate].
Qed.

Lemma first_free_nonempty f dir names d :
  first_free f dir "tfjs_convert_" names = Some d -> d <> "".
Proof.
  unfold first_free. induction names as [|n names IH]; [discriminate|].
  destruct (f !! os_path_join dir ("tfjs_convert_" +:+ n)); [exact IH|].
  intros [= <-]. by apply os_path_join_nonempty.
Qed.

Lemma convert_try_scratch env req f ev :
  wp (convert_try env req) (fun _ => scratch_ok) (fun _ => scratch_ok)
    (mkState f ev None).
Proof.
  unfold_handler.
  repeat wp_step.
  all: intros d Hd; cbn [tmp_dir fs] in *; try discriminate Hd.
  all: injection Hd as <-; split; [by eapply first_free_nonempty|].
  all: rewrite ?lookup_insert_is_Some'; auto 10.
Qed.

Lemma under_refl d : under d d = true.
Proof. unfold under. by rewrite String.eqb_refl. Qed.

Lemma rmtree_fs_lookup d (f : gmap string node) p :
  under d p = true -> rmtree_fs d f !! p = None.
Proof.
  intros Hu. unfold rmtree_fs. apply map_lookup_filter_None. right.
  intros x _. simpl. congruence.
Qed.

Lemma convert_finally_removes env st d :
  tmp_dir st = Some d -> d <> "" -> is_Some (fs st !! d) ->
  fault env AtRmtree = None ->
  convert_finally env st = (inr tt, mkState (rmtree_fs d (fs st)) (events st) (Some d)).
Proof.
  intros Ht Hd Hs Hf. destruct st as [f ev t]. cbn [tmp_dir fs events] in *. subst t.
  unfold convert_finally, bind, get_tmp_dir, get_fs. cbn [tmp_dir fs].
  apply String.eqb_neq in Hd. rewrite Hd. unfold path_exists.
  rewrite bool_decide_eq_true_2 by exact Hs. cbn [negb andb].
  unfold try_except, rmtree, bind, check_fault. rewrite Hf. reflexivity.
Qed.

(** C6, as the code has it.  The cleanup never changes the answer of
    the handler, also when the removal raises: the answer is the one the
    [try] body and the [except] clause decided.  If a scratch directory
    was created and the removal does not raise, then after the handler
    neither the directory nor anything below it exists, whether the
    answer is a success or an error. *)
Theorem scratch_removed_unless_refused env req st :
  (exists resp,
      fst (convert_model env req st) = inr resp /\
      match convert_try env req (mkState (fs st) (events st) None) with
      | (inr r, _) => resp = r
      | (inl e, _) => resp = error_response 500 (Exc.str e)
      end) /\
  (forall d,
      tmp_dir (snd (convert_model env req st)) = Some d ->
      fault env AtRmtree = None ->
      fs (snd (convert_model env req st)) !! d = None /\
      forall p, under d p = true ->
                fs (snd (convert_model env req st)) !! p = None).
Proof.
  pose proof (convert_try_scratch env req (fs st) (events st)) as Hwp.
  rewrite convert_model_eq. unfold wp in Hwp.
  destruct (convert_try env req _) as [[e|r] st1]; (split; [by eexists|]);
    cbn [snd]; intros d Hd Hf.
  - set (st2 := mkState (fs st1) (events st1 ++ [EvTraceback e]) (tmp_dir st1)) in *.
    destruct (convert_finally_quiet env st2) as [f' Hq].
    assert (tmp_dir st1 = Some d) as Ht by (rewrite Hq in Hd; exact Hd).
    destruct (Hwp d Ht) as [Hne Hs].
    rewrite (convert_finally_removes env st2 d Ht Hne Hs Hf). cbn [snd fs].
    split; [apply rmtree_fs_lookup, under_refl|]. intros p. apply rmtree_fs_lookup.
  - destruct (convert_finally_quiet env st1) as [f' Hq].
    assert (tmp_dir st1 = Some d) as Ht by (rewrite Hq in Hd; exact Hd).
    destruct (Hwp d Ht) as [Hne Hs].
    rewrite (convert_finally_removes env st1 d Ht Hne Hs Hf). cbn [snd fs].
    split; [apply rmtree_fs_lookup, under_refl|]. intros p. apply rmtree_fs_lookup.
Qed.

(** *** The health check *)

Lemma probe_run name (import : result string) d st :
  (forall e, import = inl e -> Exc.isinstance e Exc.ImportError = true) ->
  probe name import d st =
  (inr (dict_set name
          (JStr match import with inr v => v | inl _ => "not installed" end) d),
   st).
Proof.
  intros H. unfold probe, try_except, bind, lift, ret.
  destruct import as [e|v]; [|reflexivity]. by rewrite (H e eq_refl).
Qed.

(** C7, as the code has it.  When each of the two imports either
    succeeds or raises ImportError, the health check answers 200 with status [ok] and, for
    each library, the version it reports or the string ['not installed'];
    it does not raise and changes nothing. *)
Theorem health_reports_dependencies env st :
  (forall e, import_tensorflow env = inl e ->
             Exc.isinstance e Exc.ImportError = true) ->
  (forall e, import_tensorflowjs env = inl e ->
             Exc.isinstance e Exc.ImportError = true) ->
  health env st =
  (inr (mkResponse 200
          (JsonBody
             (JDict
                [("status", JStr "ok");
                 ("server", JStr "tfjs-to-tflite-converter");
                 ("tensorflow",
                  JStr match import_tensorflow env with
                       | inr version => version
                       | inl _ => "not installed"
                       end);
                 ("tensorflowjs",
                  JStr match import_tensorflowjs env with
                       | inr version => version
                       | inl _ => "not installed"
                       end)]))),
   st).
Proof.
  intros H1 H2. unfold health. unfold bind at 1.
  rewrite (probe_run "tensorflow" _ _ st H1).
  unfold bind at 1. rewrite (probe_run "tensorflowjs" _ _ st H2).
  reflexivity.
Qed.

End Conversion.

(** ** The quantize flag *)

Section Quantize.

Lemma quantize_flag_unfold req :
  quantize_flag req =
  String.eqb
    (lower match multi_get "quantize" (args req) with
           | Some v => v
           | None => "false"
           end)
    "true".
Proof. reflexivity. Qed.

(** C9. The quantize flag is set exactly when the request has a
    [quantize] query argument whose (first) value, lowercased, is the
    string ['true']; without the argument the flag is unset. *)
Theorem quantize_flag_iff req :
  (quantize_flag req = true <->
   exists v, multi_get "quantize" (args req) = Some v /\ lower v = "true") /\
  (multi_get "quantize" (args req) = None -> quantize_flag req = false).
Proof.
  rewrite quantize_flag_unfold.
  destruct (multi_get "quantize" (args req)) as [v|]; split.
  - rewrite String.eqb_eq. split; [by eexists|]. by intros (v' & [= <-] & H).
  - discriminate.
  - split; [discriminate|]. by intros (v' & [=] & _).
  - reflexivity.
Qed.

Lemma ascii_lower_t c : ascii_lower c = "t"%char -> c = "t"%char \/ c = "T"%char.
Proof.
  destruct c as [[] [] [] [] [] [] [] []]; cbv; intros H;
    first [discriminate H|by left|by right].
Qed.

Lemma ascii_lower_r c : ascii_lower c = "r"%char -> c = "r"%char \/ c = "R"%char.
Proof.
  destruct c as [[] [] [] [] [] [] [] []]; cbv; intros H;
    first [discriminate H|by left|by right].
Qed.

Lemma ascii_lower_u c : ascii_lower c = "u"%char -> c = "u"%char \/ c = "U"%char.
Proof.
  destruct c as [[] [] [] [] [] [] [] []]; cbv; intros H;
    first [discriminate H|by left|by right].
Qed.

Lemma ascii_lower_e c : ascii_lower c = "e"%char -> c = "e"%char \/ c = "E"%char.
Proof.
  destruct c as [[] [] [] [] [] [] [] []]; cbv; intros H;
    first [discriminate H|by left|by right].
Qed.

(** The values that set the flag: the sixteen spellings of [true]. *)
Lemma lower_true_iff v :
  lower v = "true" <->
  exists a b c d,
    v = String a (String b (String c (String d EmptyString))) /\
    (a = "t" \/ a = "T")%char /\ (b = "r" \/ b = "R")%char /\
    (c = "u" \/ c = "U")%char /\ (d = "e" \/ d = "E")%char.
Proof.
  split.
  - destruct v as [|a [|b [|c [|d [|x v]]]]]; cbn [lower]; try discriminate.
    intros [= Ha Hb Hc Hd]. exists a, b, c, d.
    split; [reflexivity|].
    split; [by apply ascii_lower_t|]. split; [by apply ascii_lower_r|].
    split; [by apply ascii_lower_u|by apply ascii_lower_e].
  - intros (a & b & c & d & -> & [-> | ->] & [-> | ->] & [-> | ->] & [-> | ->]);
      reflexivity.
Qed.

End Quantize.

(** * The handlers on concrete requests *)

Section Runs.

Example run_plain :
  fst (Demo.run Demo.env Demo.request) =
  inr (mkResponse 200
         (FileBody "TFL3/float32-twice-the-size" "application/octet-stream"
            "model.tflite")).
Proof. vm_compute. reflexivity. Qed.

Example run_quantized :
  fst (Demo.run Demo.env Demo.request_quantized) =
  inr (mkResponse 200
         (FileBody "TFL3/float16" "application/octet-stream" "model.tflite")).
Proof. vm_compute. reflexivity. Qed.

Example run_leaves_nothing : fs (snd (Demo.run Demo.env Demo.request)) = ∅.
Proof. vm_compute. reflexivity. Qed.

(** An upload that is not JSON: the parse error comes back as 500. *)
Example run_bad_topology :
  fst (Demo.run Demo.env Demo.request_bad_topology) =
  inr (error_response 500 "Expecting value: line 1 column 1 (char 0)") /\
  fs (snd (Demo.run Demo.env Demo.request_bad_topology)) = ∅.
Proof. vm_compute. split; reflexivity. Qed.

(** A manifest entry that is a number: line 83 raises TypeError, the
    answer is 500 and the loader is never called. *)
Example run_odd_manifest :
  fst (Demo.run Demo.env Demo.request_odd_manifest) =
  inr (error_response 500 "'int' object does not support item assignment") /\
  events (snd (Demo.run Demo.env Demo.request_odd_manifest)) =
  [EvTraceback
     (Exc.mk Exc.TypeError "'int' object does not support item assignment")].
Proof. vm_compute. split; reflexivity. Qed.

(** The loader rejects the staged model. *)
Example run_empty_topology :
  fst (Demo.run Demo.env Demo.request_empty_topology) =
  inr (error_response 500 "'modelTopology'").
Proof. vm_compute. reflexivity. Qed.

(** Saving an upload fails: 500, and the scratch directory is removed. *)
Example run_disk_full :
  fst (Demo.run Demo.env_disk_full Demo.request) =
  inr (error_response 500 "[Errno 28] No space left on device") /\
  fs (snd (Demo.run Demo.env_disk_full Demo.request)) = ∅.
Proof. vm_compute. split; reflexivity. Qed.

Example flag_values :
  map (fun v => quantize_flag (mkRequest [] [] [("quantize", v)]))
    ["true"; "True"; "TRUE"; "tRuE"; "1"; "yes"; "on"; ""; "true "; "false"]
  = [true; true; true; true; false; false; false; false; false; false].
Proof. reflexivity. Qed.


(** C1 does not hold as stated: on a machine without tensorflow a
    request without the [model_json] part is answered 500, not 400. *)
Lemma missing_upload_without_tensorflow :
  multi_mem "model_json" (files Demo.request_without_files) = false /\
  fst (Demo.run Demo.env_without_tensorflow Demo.request_without_files) =
  inr (mkResponse 500
         (JsonBody
            (JDict
               [("error",
                 JStr "Missing dependency: No module named 'tensorflow'. Install with: pip install tensorflow tensorflowjs")]))) /\
  fst (Demo.run Demo.env_without_tensorflow Demo.request_without_files) <>
  inr (error_response 400 "Missing model_json file").
Proof. vm_compute. repeat split. discriminate. Qed.

Lemma missing_upload_rejected_witness :
  Demo.run Demo.env Demo.request_without_files =
  (inr (error_response 400 "Missing model_json file"), arrive ∅) /\
  Demo.run Demo.env Demo.request_only_model =
  (inr (error_response 400 "Missing weights_bin file"), arrive ∅).
Proof.
  split.
  - exact (proj1 (missing_upload_rejected Demo.env Demo.request_without_files
                    (arrive ∅) "2.15.0" "4.17.0" eq_refl eq_refl eq_refl) eq_refl).
  - exact (proj2 (missing_upload_rejected Demo.env Demo.request_only_model
                    (arrive ∅) "2.15.0" "4.17.0" eq_refl eq_refl eq_refl)
             eq_refl eq_refl).
Defined.

Lemma quantize_configures_converter_witness :
  let c := mkConverter (Demo.dumps Demo.patched_topology)
             (Some [OptimizeDEFAULT]) (Some [DTfloat16]) in
  In (EvConvert c) (events (snd (Demo.run Demo.env Demo.request_quantized))) /\
  optimizations c = Some [OptimizeDEFAULT] /\
  supported_types c = Some [DTfloat16].
Proof.
  intros c.
  assert (In (EvConvert c) (events (snd (Demo.run Demo.env Demo.request_quantized))))
    as Hin by (vm_compute; tauto).
  split; [exact Hin|].
  exact (quantize_configures_converter Demo.env Demo.request_quantized ∅ c Hin).
Defined.

Lemma loader_sees_patched_manifest_witness :
  (In (EvLoad Demo.staged "/tmp/tfjs_convert_k3x9q0ab/model.json")
     (events (snd (Demo.run Demo.env Demo.request))) /\
   Demo.staged !! "/tmp/tfjs_convert_k3x9q0ab/model.json" =
   Some (File (Demo.dumps Demo.patched_topology))) /\
  (exists seen,
      In (EvLoad seen "/tmp/tfjs_convert_k3x9q0ab/model.json")
        (events (snd (Demo.run Demo.env Demo.request))) /\
      seen !! "/tmp/tfjs_convert_k3x9q0ab/model.json" =
      Some (File (Demo.dumps Demo.patched_topology))).
Proof.
  split.
  - assert (In (EvLoad Demo.staged "/tmp/tfjs_convert_k3x9q0ab/model.json")
              (events (snd (Demo.run Demo.env Demo.request)))) as Hin
      by (vm_compute; tauto).
    split; [exact Hin|].
    destruct (proj1 (loader_sees_patched_manifest Demo.env Demo.request ∅) _ _ Hin)
      as (tmp & upload & text & cfg & _ & _ & Hu & Ht & Hc & Hy & _).
    injection Hu as <-. injection Ht as <-. injection Hc as <-.
    destruct (Hy eq_refl) as (cfg' & entries & entries' & Hp & _ & _ & _ & _ & Hs).
    injection Hp as <-. exact Hs.
  - refine (proj2 (loader_sees_patched_manifest Demo.env Demo.request ∅)
              "2.15.0" "4.17.0" Demo.topology_text "0123456789abcdef"
              Demo.scratch Demo.topology_text
              [("modelTopology", JDict [("class_name", JStr "Sequential")]);
               ("weightsManifest",
                JList [JDict [("paths", JList [JStr "group1-shard1of1.bin"]);
                              ("weights", JList [])]])]
              [[("paths", JList [JStr "group1-shard1of1.bin"]);
                ("weights", JList [])]]
              eq_refl eq_refl eq_refl eq_refl eq_refl I _ eq_refl eq_refl eq_refl
              eq_refl).
    intros s _. reflexivity.
Defined.

Lemma exceptions_become_500_witness :
  fst (Demo.run Demo.env Demo.request_bad_topology) =
  inr (mkResponse 500
         (JsonBody
            (JDict [("error", JStr "Expecting value: line 1 column 1 (char 0)")]))).
Proof.
  destruct (exceptions_become_500 Demo.env Demo.request_bad_topology ∅)
    as (resp & st' & Hrun & Hraise & _).
  unfold Demo.run. rewrite Hrun. cbn [fst]. f_equal.
  apply (Hraise
           (Exc.mk Exc.JSONDecodeError "Expecting value: line 1 column 1 (char 0)")
           (snd (convert_try Demo.env Demo.request_bad_topology (arrive ∅)))).
  vm_compute. reflexivity.
Defined.

Lemma malformed_metadata_defaults_witness :
  parse_metadata Demo.env "not json" (arrive ∅) = (inr (JDict []), arrive ∅) /\
  Demo.run Demo.env (Demo.request_with_metadata "not json") =
  Demo.run Demo.env Demo.request /\
  convert_try Demo.env (Demo.request_with_metadata "not json") (arrive ∅) =
  convert_staged Demo.env Demo.topology_text "0123456789abcdef" false (arrive ∅).
Proof.
  destruct (malformed_metadata_defaults Demo.env
              (Demo.request_with_metadata "not json") (arrive ∅) "not json"
              (Exc.mk Exc.JSONDecodeError "Expecting value: line 1 column 1 (char 0)")
              eq_refl eq_refl eq_refl eq_refl)
    as (Hp & Hsame & Hstaged).
  split; [exact Hp|]. split.
  - exact (Hsame (JDict []) eq_refl eq_refl).
  - exact (Hstaged "2.15.0" "4.17.0" Demo.topology_text "0123456789abcdef"
             eq_refl eq_refl eq_refl eq_refl).
Defined.

(** C6 does not hold as stated: when the removal is refused the
    exception is swallowed, the request is answered 200, and the scratch
    directory is still there after the handler. *)
Lemma scratch_survives_refused_removal :
  fst (Demo.run Demo.env_rmtree_refused Demo.request) =
  inr (mkResponse 200
         (FileBody "TFL3/float32-twice-the-size" "application/octet-stream"
            "model.tflite")) /\
  tmp_dir (snd (Demo.run Demo.env_rmtree_refused Demo.request)) = Some Demo.scratch /\
  fs (snd (Demo.run Demo.env_rmtree_refused Demo.request)) !! Demo.scratch = Some Dir.
Proof. vm_compute. repeat split. Qed.

Lemma scratch_removed_unless_refused_witness :
  tmp_dir (snd (Demo.run Demo.env Demo.request)) = Some Demo.scratch /\
  fs (snd (Demo.run Demo.env Demo.request)) !! Demo.scratch = None.
Proof.
  assert (tmp_dir (snd (Demo.run Demo.env Demo.request)) = Some Demo.scratch) as Ht
    by (vm_compute; reflexivity).
  split; [exact Ht|].
  destruct (scratch_removed_unless_refused Demo.env Demo.request (arrive ∅))
    as [_ H].
  exact (proj1 (H Demo.scratch Ht eq_refl)).
Defined.

Lemma health_reports_dependencies_witness :
  health Demo.env_without_tensorflow (arrive ∅) =
  (inr (mkResponse 200
          (JsonBody
             (JDict
                [("status", JStr "ok");
                 ("server", JStr "tfjs-to-tflite-converter");
                 ("tensorflow", JStr "not installed");
                 ("tensorflowjs", JStr "4.17.0")]))),
   arrive ∅).
Proof.
  refine (health_reports_dependencies Demo.env_without_tensorflow (arrive ∅) _ _).
  - intros e H. injection H as <-. reflexivity.
  - intros e H. discriminate H.
Defined.

(** C8 does not hold as stated: a metadata field holding a JSON integer
    of 4301 digits makes [json.loads] raise a ValueError that is not a
    JSONDecodeError, and the request that is answered 200 with the
    metadata [{}] is answered 500 with this one. *)
Lemma metadata_can_abort_request :
  files (Demo.request_with_metadata "{}") =
  files (Demo.request_with_metadata Demo.long_integer) /\
  args (Demo.request_with_metadata "{}") =
  args (Demo.request_with_metadata Demo.long_integer) /\
  fst (Demo.run Demo.env (Demo.request_with_metadata "{}")) =
  inr (mkResponse 200
         (FileBody "TFL3/float32-twice-the-size" "application/octet-stream"
            "model.tflite")) /\
  fst (Demo.run Demo.env (Demo.request_with_metadata Demo.long_integer)) =
  inr (mkResponse 500
         (JsonBody
            (JDict
               [("error",
                 JStr "Exceeds the limit (4300 digits) for integer string conversion: value has 4301 digits; use sys.set_int_max_str_digits() to increase the limit")]))) /\
  fst (Demo.run Demo.env (Demo.request_with_metadata "{}")) <>
  fst (Demo.run Demo.env (Demo.request_with_metadata Demo.long_integer)).
Proof. vm_compute. repeat split. discriminate. Qed.

Lemma metadata_is_ignored_witness :
  Demo.run Demo.env (Demo.request_with_metadata "{}") =
  Demo.run Demo.env (Demo.request_with_metadata "not json").
Proof.
  exact (metadata_is_ignored Demo.env (Demo.request_with_metadata "{}")
           (Demo.request_with_metadata "not json") (arrive ∅)
           eq_refl eq_refl eq_refl eq_refl I eq_refl).
Defined.

Lemma quantize_flag_iff_witness :
  quantize_flag Demo.request_quantized = true /\
  quantize_flag Demo.request = false.
Proof.
  split.
  - apply (proj1 (quantize_flag_iff Demo.request_quantized)).
    exists "True". split; reflexivity.
  - exact (proj2 (quantize_flag_iff Demo.request) eq_refl).
Defined.

Lemma dependency_check_precedes_validation_witness :
  Demo.run Demo.env_without_tensorflow Demo.request_without_files =
  (inr (error_response 500
          "Missing dependency: No module named 'tensorflow'. Install with: pip install tensorflow tensorflowjs"),
   arrive ∅).
Proof.
  destruct (dependency_check_precedes_validation Demo.env_without_tensorflow
              Demo.request_without_files (arrive ∅)
              (Exc.mk Exc.ModuleNotFoundError "No module named 'tensorflow'")
              eq_refl)
    as (resp & st' & Hrun & _ & _ & Hmissing & _).
  destruct (Hmissing eq_refl) as [-> ->]. exact Hrun.
Defined.

(** The parser refuses the body: the upload checks are never reached and
    the request without a [model_json] part is answered 500. *)
Example run_too_many_fields :
  multi_mem "model_json" (files Scenario.request_too_many_fields) = false /\
  Demo.run Demo.env Scenario.request_too_many_fields =
  (inr (error_response 500
          "413 Request Entity Too Large: The data value transmitted exceeds the capacity limit."),
   mkState ∅ [EvTraceback Demo.request_entity_too_large] None).
Proof. vm_compute. split; reflexivity. Qed.

(** C5 does not hold as stated: a metadata field that opens a list and
    never closes it is not valid JSON, the body holding it parses, and yet
    the request that is answered 200 without it is answered 500 with it,
    with an error that quotes the size of the metadata: [json.loads]
    raises a ValueError, which line 64 does not catch. *)
Lemma malformed_metadata_can_abort :
  String.prefix "[" Demo.unclosed_long_integer = true /\
  str_contains "]" Demo.unclosed_long_integer = false /\
  parse_form_data Demo.env
    (Demo.request_with_metadata Demo.unclosed_long_integer) = None /\
  fst (Demo.run Demo.env Demo.request) =
  inr (mkResponse 200
         (FileBody "TFL3/float32-twice-the-size" "application/octet-stream"
            "model.tflite")) /\
  fst (Demo.run Demo.env (Demo.request_with_metadata Demo.unclosed_long_integer)) =
  inr (mkResponse 500
         (JsonBody
            (JDict
               [("error",
                 JStr "Exceeds the limit (4300 digits) for integer string conversion: value has 4301 digits; use sys.set_int_max_str_digits() to increase the limit")]))).
Proof. vm_compute. repeat split. Qed.

(** C7 does not hold as stated: with a tensorflow that is installed but
    whose import raises an AttributeError, the import fails and the health
    check answers nothing: it raises that exception. *)
Lemma health_fails_on_broken_tensorflow :
  import_tensorflow Scenario.env_broken = inl Scenario.broken /\
  fst (health Scenario.env_broken (arrive ∅)) = inl Scenario.broken /\
  forall resp, fst (health Scenario.env_broken (arrive ∅)) <> inr resp.
Proof. vm_compute. repeat split. discriminate. Qed.

(** C10 does not hold as stated: with a tensorflow whose import raises an
    AttributeError the library cannot be imported, and the 500 that
    answers the request carries the string of that exception, not the
    missing-dependency message. *)
Lemma broken_dependency_not_reported_missing :
  import_tensorflow Scenario.env_broken = inl Scenario.broken /\
  fst (Demo.run Scenario.env_broken Demo.request_without_files) =
  inr (mkResponse 500
         (JsonBody
            (JDict [("error", JStr "module 'numpy' has no attribute 'object'")]))) /\
  fst (Demo.run Scenario.env_broken Demo.request_without_files) <>
  inr (missing_dependency Scenario.broken).
Proof. vm_compute. repeat split. discriminate. Qed.

End Runs.

(** * Further properties *)

(** ** The manifest patch, as a function on JSON values *)

Section ManifestPatch.

Lemma dict_set_set k v v' d : dict_set k v (dict_set k v' d) = dict_set k v d.
Proof.
  induction d as [|[k' x] d IH]; simpl.
  - by rewrite String.eqb_refl.
  - destruct (String.eqb k k') eqn:E; simpl; rewrite E; [reflexivity|by rewrite IH].
Qed.

Lemma dict_get_set_ne k k' v d :
  k <> k' -> dict_get k' (dict_set k v d) = dict_get k' d.
Proof.
  intros Hne. induction d as [|[k0 x] d IH]; simpl.
  - apply String.eqb_neq in Hne. rewrite String.eqb_sym. by rewrite Hne.
  - destruct (String.eqb k k0) eqn:E; simpl.
    + apply String.eqb_eq in E. subst k0.
      assert (String.eqb k' k = false) as ->; [|reflexivity].
      apply String.eqb_neq. congruence.
    + destruct (String.eqb k' k0); [reflexivity|exact IH].
Qed.

Lemma dict_set_keys k v d x :
  dict_get k d = Some x -> map fst (dict_set k v d) = map fst d.
Proof.
  induction d as [|[k' y] d IH]; simpl; [discriminate|].
  destruct (String.eqb k k'); [reflexivity|]. intros H. simpl. by rewrite IH.
Qed.

Lemma setitem_inv old new :
  py_setitem "paths" weights_paths old = inr new ->
  exists e, old = JDict e /\ new = repoint e.
Proof. destruct old; simpl; try discriminate. intros [= <-]. eauto. Qed.

Lemma setitem_error old e :
  py_setitem "paths" weights_paths old = inl e -> Exc.class e = Exc.TypeError.
Proof. destruct old; simpl; try discriminate; by intros [= <-]. Qed.

Lemma rmap_setitem_inv items items' :
  rmap_list (py_setitem "paths" weights_paths) items = inr items' ->
  exists entries, items = map JDict entries /\ items' = map repoint entries.
Proof.
  revert items'. induction items as [|x items IH]; simpl; intros items' H.
  - injection H as <-. by exists [].
  - destruct (py_setitem _ _ x) as [e|y] eqn:Ex; simpl in H; [discriminate|].
    destruct (rmap_list _ items) as [e|ys]; simpl in H; [discriminate|].
    injection H as <-. destruct (IH ys eq_refl) as (entries & -> & ->).
    destruct (setitem_inv _ _ Ex) as (e & -> & ->). by exists (e :: entries).
Qed.

Lemma rmap_setitem_error items e :
  rmap_list (py_setitem "paths" weights_paths) items = inl e ->
  Exc.class e = Exc.TypeError /\ ~ Forall is_object items.
Proof.
  induction items as [|x items IH]; simpl; [discriminate|].
  destruct (py_setitem _ _ x) as [e'|y] eqn:Ex; simpl.
  - intros [= <-]. split; [by eapply setitem_error|].
    intros H. inversion H as [|? ? [d ->] _]. discriminate Ex.
  - destruct (rmap_list _ items) as [e'|ys]; simpl; [|discriminate].
    intros [= <-]. destruct (IH eq_refl) as [Hc Hn]. split; [exact Hc|].
    intros H. apply Hn. by inversion H.
Qed.

(** Patching a topology whose manifest is a list succeeds exactly when
    every entry of the list is an object; when it fails, what is raised is
    a TypeError. *)
Theorem patch_manifest_list_iff d items :
  dict_get "weightsManifest" d = Some (JList items) ->
  ((exists cfg', patch_manifest (JDict d) = inr cfg') <-> Forall is_object items) /\
  (forall e, patch_manifest (JDict d) = inl e -> Exc.class e = Exc.TypeError).
Proof.
  intros Hd. unfold patch_manifest, py_getitem. rewrite Hd. cbn [rbind py_iter].
  destruct (rmap_list _ items) as [e|items'] eqn:Em; cbn [rbind].
  - destruct (rmap_setitem_error _ _ Em) as [Hc Hn]. split.
    + split; [by intros [cfg' [=]]|by intros H].
    + by intros e' [= <-].
  - destruct (rmap_setitem_inv _ _ Em) as (entries & -> & ->). split.
    + split; [|by eexists]. intros _. clear. induction entries; constructor; eauto.
      by eexists.
    + intros e [=].
Qed.

(** Patching changes nothing but the [paths] of the manifest entries:
    the topology keeps its keys in their order and the value of every
    key other than [weightsManifest]; the manifest keeps its entries in
    number and order; every entry keeps all its other fields. *)
Theorem patch_manifest_keeps_rest cfg cfg' :
  patch_manifest cfg = inr cfg' ->
  exists d d' entries entries',
    cfg = JDict d /\ cfg' = JDict d' /\
    map fst d' = map fst d /\
    (forall k, k <> "weightsManifest" -> dict_get k d' = dict_get k d) /\
    manifest_entries cfg = inr entries /\
    manifest_entries cfg' = inr entries' /\
    Forall2 (fun old new =>
               forall k, k <> "paths" -> py_getitem k new = py_getitem k old)
      entries entries'.
Proof.
  unfold patch_manifest, manifest_entries.
  destruct cfg as [| | | | | |d]; try (cbn; discriminate).
  destruct (py_getitem "weightsManifest" (JDict d)) as [e|m] eqn:Eg;
    cbn [rbind]; [discriminate|].
  assert (dict_get "weightsManifest" d = Some m) as Hd.
  { unfold py_getitem in Eg. destruct (dict_get _ d); congruence. }
  destruct (py_iter m) as [e|items] eqn:Ei; cbn [rbind]; [discriminate|].
  destruct (rmap_list _ items) as [e|items'] eqn:Em; cbn [rbind]; [discriminate|].
  destruct (rmap_setitem_inv _ _ Em) as (entries & -> & ->).
  assert (Forall2 (fun old new =>
                     forall k, k <> "paths" -> py_getitem k new = py_getitem k old)
            (map JDict entries) (map repoint entries)) as HF.
  { clear. induction entries as [|e entries IH]; constructor; [|exact IH].
    intros k Hk. unfold repoint, py_getitem.
    rewrite dict_get_set_ne by congruence. reflexivity. }
  destruct m; try (simpl in Ei; discriminate Ei); intros [= <-].
  - (* a str: no character to assign to *)
    exists d, d, (map JDict entries), (map repoint entries).
    rewrite Eg. cbn [rbind]. rewrite Ei.
    assert (entries = []) as ->.
    { simpl in Ei. destruct s; [|destruct entries; discriminate].
      by destruct entries. }
    repeat split; done.
  - exists d, (dict_set "weightsManifest" (JList (map repoint entries)) d),
      (map JDict entries), (map repoint entries).
    simpl in Ei. injection Ei as ->.
    repeat split; try done.
    + by eapply dict_set_keys.
    + intros k Hk. by apply dict_get_set_ne.
    + unfold py_getitem. by rewrite dict_get_set.
  - exists d, d, (map JDict entries), (map repoint entries).
    rewrite Eg. cbn [rbind]. rewrite Ei.
    assert (entries = []) as ->.
    { simpl in Ei. destruct entries0; [by destruct entries|].
      destruct entries; discriminate. }
    repeat split; done.
Qed.

(** Patching is idempotent: on a topology it has already patched it
    succeeds again and returns the same topology. *)
Theorem patch_manifest_idempotent cfg cfg' :
  patch_manifest cfg = inr cfg' -> patch_manifest cfg' = inr cfg'.
Proof.
  intros H. pose proof H as H0. revert H.
  unfold patch_manifest at 1.
  destruct cfg as [| | | | | |d]; try (cbn; discriminate).
  destruct (py_getitem "weightsManifest" (JDict d)) as [e|m] eqn:Eg;
    cbn [rbind]; [discriminate|].
  destruct (py_iter m) as [e|items] eqn:Ei; cbn [rbind]; [discriminate|].
  destruct (rmap_list _ items) as [e|items'] eqn:Em; cbn [rbind]; [discriminate|].
  destruct (rmap_setitem_inv _ _ Em) as (entries & -> & ->).
  destruct m; try (simpl in Ei; discriminate Ei); intros [= <-]; try exact H0.
  unfold patch_manifest, py_getitem. rewrite dict_get_set. cbn [rbind py_iter].
  assert (rmap_list (py_setitem "paths" weights_paths) (map repoint entries) =
          inr (map repoint entries)) as ->.
  { clear. induction entries as [|e entries IH]; [reflexivity|].
    cbn [map rmap_list]. rewrite IH. unfold repoint at 1. cbn [py_setitem rbind].
    by rewrite dict_set_set. }
  cbn [rbind]. by rewrite dict_set_set.
Qed.

End ManifestPatch.

(** ** What the handler answers *)

(** Closes a goal [In x l] on a list given by its elements. *)
Ltac in_list := cbn [events app In]; repeat (first [left; reflexivity|right]).

(** Reads a hypothesis [In x l] on a list given by its elements. *)
Ltac case_in H :=
  cbn [events app In] in H;
  repeat (destruct H as [H|H]; try discriminate H); try contradiction.

Section Answers.

Context {Model : Type}.
Implicit Types (env : Env Model) (st : State Model) (req : Request).

Lemma convert_try_answers env req f :
  wp (convert_try env req) (answer_ok env) (fun _ _ => True) (arrive f).
Proof.
  unfold arrive. unfold_handler.
  repeat wp_step_knowing; try exact I.
  all: unfold answer_ok; try (left; reflexivity); try (right; left; reflexivity);
    try (right; right; left; eexists; reflexivity).
  all: right; right; right; eexists _, _; split; [in_list|];
    split; [eassumption|reflexivity].
Qed.

(** Every answer of POST /convert has one of four shapes: 400 with one of
    the two missing-upload messages, 500 with a one-field JSON error, or
    200 with an octet-stream attachment named [model.tflite]; and a 200
    answer carries exactly the bytes the converter returned in this
    request. *)
Theorem convert_answer_shapes env req f :
  exists resp,
    fst (convert_model env req (arrive f)) = inr resp /\
    (resp = error_response 400 "Missing model_json file" \/
     resp = error_response 400 "Missing weights_bin file" \/
     (exists msg, resp = error_response 500 msg) \/
     (exists c bytes,
         In (EvConvert c) (events (snd (convert_model env req (arrive f)))) /\
         convert env c = inr bytes /\
         resp = mkResponse 200
                  (FileBody bytes "application/octet-stream" "model.tflite"))).
Proof.
  pose proof (convert_try_answers env req f) as Hwp.
  rewrite convert_model_events. rewrite convert_model_eq.
  unfold wp in Hwp. cbn [arrive fs events]. fold (@arrive Model f).
  destruct (convert_try env req (arrive f)) as [[e|r] st1]; cbn [fst].
  - eexists. split; [reflexivity|]. right; right; left. by eexists.
  - exists r. split; [reflexivity|].
    destruct Hwp as [->|[->|[[e ->]|(c & bytes & Hin & Hc & ->)]]]; auto.
    + right; right; left. by eexists.
    + right; right; right. by exists c, bytes.
Qed.

Lemma convert_try_delivers env req f :
  fault env AtWriteTflite = None ->
  fault env AtSendFile = None ->
  wp (convert_try env req)
    (fun r st => forall c bytes,
         In (EvConvert c) (events st) -> convert env c = inr bytes ->
         r = tflite_response bytes)
    (fun _ st => forall c bytes,
         In (EvConvert c) (events st) -> convert env c = inr bytes -> False)
    (arrive f).
Proof.
  intros Hw Hs. unfold arrive. unfold_handler.
  repeat wp_step_knowing.
  all: intros c bytes Hin Hc; case_in Hin.
  all: injection Hin as <-; try congruence.
  all: unfold tflite_response; congruence.
Qed.

(** When the converter returns for the converter it was handed, and
    neither writing [model.tflite] nor sending it fails, the answer is 200
    with these bytes as the attachment. *)
Theorem converted_bytes_are_delivered env req f c bytes :
  In (EvConvert c) (events (snd (convert_model env req (arrive f)))) ->
  convert env c = inr bytes ->
  fault env AtWriteTflite = None ->
  fault env AtSendFile = None ->
  fst (convert_model env req (arrive f)) =
  inr (mkResponse 200 (FileBody bytes "application/octet-stream" "model.tflite")).
Proof.
  intros Hin Hc Hw Hs.
  pose proof (convert_try_delivers env req f Hw Hs) as Hwp.
  rewrite convert_model_events in Hin. rewrite convert_model_eq.
  unfold wp in Hwp. cbn [arrive fs events] in *. fold (@arrive Model f) in *.
  destruct (convert_try env req (arrive f)) as [[e|r] st1]; cbn [fst].
  - apply in_app_iff in Hin as [Hin|[Hin|[]]]; [|discriminate].
    destruct (Hwp c bytes Hin Hc).
  - by rewrite (Hwp c bytes Hin Hc).
Qed.

Lemma convert_try_lineage env req f :
  wp (convert_try env req) (fun _ => converted_from_loaded env)
    (fun _ => converted_from_loaded env) (arrive f).
Proof.
  unfold arrive. unfold_handler.
  repeat wp_step_knowing.
  all: intros c Hin; case_in Hin.
  all: injection Hin as <-; cbn [conv_model].
  all: eexists _, _; split; [in_list|]; repeat split; assumption.
Qed.

(** The model that is converted is the model that was loaded: every
    converter handed to [convert] was built from a model that the loader
    returned for the staged files, after [model.summary()] and the
    construction of the converter succeeded on it. *)
Theorem converted_model_was_loaded env req f (c : Converter Model) :
  In (EvConvert c) (events (snd (convert_model env req (arrive f)))) ->
  exists seen path,
    In (EvLoad seen path) (events (snd (convert_model env req (arrive f)))) /\
    load_keras_model env seen path = inr (conv_model c) /\
    model_summary env (conv_model c) = None /\
    from_keras_model env (conv_model c) = None.
Proof.
  pose proof (convert_try_lineage env req f) as Hwp.
  rewrite convert_model_events. unfold wp in Hwp.
  cbn [arrive fs events]. fold (@arrive Model f).
  destruct (convert_try env req (arrive f)) as [[e|r] st1]; intros Hin.
  - apply in_app_iff in Hin as [Hin|[Hin|[]]]; [|discriminate].
    destruct (Hwp c Hin) as (seen & path & Hl & Hrest).
    exists seen, path. split; [apply in_app_iff; by left|exact Hrest].
  - exact (Hwp c Hin).
Qed.

Lemma convert_try_no_traceback env req f :
  wp (convert_try env req) (fun _ => no_traceback) (fun _ => no_traceback)
    (arrive f).
Proof.
  unfold arrive. unfold_handler.
  repeat wp_step_knowing.
  all: intros e Hin; case_in Hin.
Qed.

(** A traceback is printed exactly for the requests that the catch-all
    clause answers: the traceback of [e] is in the log if and only if the
    [try] body raised [e], and then the answer is the 500 that reports
    [str(e)]. *)
Theorem traceback_iff_caught env req f e :
  (In (EvTraceback e) (events (snd (convert_model env req (arrive f)))) <->
   exists st1, convert_try env req (arrive f) = (inl e, st1)) /\
  (In (EvTraceback e) (events (snd (convert_model env req (arrive f)))) ->
   fst (convert_model env req (arrive f)) = inr (error_response 500 (Exc.str e))).
Proof.
  pose proof (convert_try_no_traceback env req f) as Hwp.
  rewrite convert_model_events, convert_model_eq. unfold wp in Hwp.
  cbn [arrive fs events]. fold (@arrive Model f).
  destruct (convert_try env req (arrive f)) as [[e'|r] st1]; cbn [fst].
  - split; [split|].
    + intros Hin. apply in_app_iff in Hin as [Hin|[[= ->]|[]]]; [|by eexists].
      destruct (Hwp _ Hin).
    + intros (st2 & [= -> _]). apply in_app_iff. right. by left.
    + intros Hin. apply in_app_iff in Hin as [Hin|[[= ->]|[]]]; [|reflexivity].
      destruct (Hwp _ Hin).
  - split; [split|].
    + intros Hin. destruct (Hwp _ Hin).
    + by intros (st2 & [=]).
    + intros Hin. destruct (Hwp _ Hin).
Qed.

End Answers.

(** ** What the loader finds, and what never reaches it *)

Section Staging.

Context {Model : Type}.
Implicit Types (env : Env Model) (st : State Model) (req : Request).

Lemma string_app_self (a x : string) : a +:+ x = a -> x = "".
Proof. induction a as [|c a IH]; simpl; [done|]. intros [= H]. by apply IH. Qed.

(** A file staged in a directory is not the directory. *)
Lemma staged_not_dir d x :
  String.prefix "/" x = false -> x <> "" -> os_path_join d x <> d.
Proof.
  unfold os_path_join. intros -> Hx.
  destruct (String.eqb d "" || ends_with_slash d); intros H;
    apply string_app_self in H; [done|discriminate].
Qed.

Lemma convert_try_weights env req f :
  wp (convert_try env req) (fun _ => weights_staged env req f)
    (fun _ => weights_staged env req f) (arrive f).
Proof.
  unfold arrive. unfold_handler.
  repeat wp_step_knowing.
  all: intros seen path Hin; case_in Hin.
  all: injection Hin as <- <-.
  all: eexists _, _; split; [eassumption|]; split; [eassumption|].
  all: split;
    repeat first
      [ rewrite lookup_insert_eq
      | rewrite lookup_insert_ne
          by first [ apply staged_paths_differ
                   | apply not_eq_sym, staged_paths_differ
                   | apply staged_not_dir; [reflexivity|discriminate] ] ];
    reflexivity.
Qed.

(** When the loader is called, the scratch directory exists and its
    [weights.bin] holds the uploaded weights, byte for byte. *)
Theorem loader_finds_weights env req f seen path :
  In (EvLoad seen path) (events (snd (convert_model env req (arrive f)))) ->
  exists tmp weights,
    first_free f (tempdir env) "tfjs_convert_" (tmp_names env) = Some tmp /\
    multi_get "weights_bin" (files req) = Some weights /\
    seen !! tmp = Some Dir /\
    seen !! os_path_join tmp "weights.bin" = Some (File weights).
Proof.
  pose proof (convert_try_weights env req f) as Hwp.
  rewrite convert_model_events. unfold wp in Hwp.
  cbn [arrive fs events]. fold (@arrive Model f).
  destruct (convert_try env req (arrive f)) as [[e|r] st1]; intros Hin.
  - apply in_app_iff in Hin as [Hin|[Hin|[]]]; [|discriminate].
    exact (Hwp _ _ Hin).
  - exact (Hwp _ _ Hin).
Qed.

Lemma patch_manifest_object cfg cfg' : patch_manifest cfg = inr cfg' -> is_object cfg.
Proof.
  unfold patch_manifest. destruct cfg; try (cbn; discriminate). by eexists.
Qed.

Lemma topology_keys_object cfg keys : topology_keys cfg = inr keys -> is_object cfg.
Proof. destruct cfg; try (cbn; discriminate). by eexists. Qed.

Lemma convert_try_rejects_non_object env req f upload text cfg :
  multi_get "model_json" (files req) = Some upload ->
  decode_text env upload = inr text ->
  json_loads env text = inr cfg ->
  ~ is_object cfg ->
  wp (convert_try env req)
    (fun r st => (status r = 400%Z \/ status r = 500%Z) /\ no_load st)
    (fun _ => no_load) (arrive f).
Proof.
  intros Hu Hd Hl Hn. unfold arrive. unfold_handler.
  repeat wp_step_knowing.
  all: try (exfalso; apply Hn;
            first [by eapply patch_manifest_object|by eapply topology_keys_object]).
  all: try (split; [cbn; auto|]).
  all: intros seen path Hin; case_in Hin.
Qed.

(** An uploaded topology that is valid JSON but not an object (a list, a
    string, a number, a boolean, null) is never handed to the loader: the
    request is answered 400 or 500. *)
Theorem non_object_topology_rejected env req f upload text cfg :
  multi_get "model_json" (files req) = Some upload ->
  decode_text env upload = inr text ->
  json_loads env text = inr cfg ->
  ~ is_object cfg ->
  (exists resp,
      fst (convert_model env req (arrive f)) = inr resp /\
      (status resp = 400%Z \/ status resp = 500%Z)) /\
  forall seen path,
    ~ In (EvLoad seen path) (events (snd (convert_model env req (arrive f)))).
Proof.
  intros Hu Hd Hl Hn.
  pose proof (convert_try_rejects_non_object env req f _ _ _ Hu Hd Hl Hn) as Hwp.
  rewrite convert_model_events, convert_model_eq. unfold wp in Hwp.
  cbn [arrive fs events]. fold (@arrive Model f).
  destruct (convert_try env req (arrive f)) as [[e|r] st1]; cbn [fst].
  - split; [eexists; split; [reflexivity|by right]|].
    intros seen path Hin. apply in_app_iff in Hin as [Hin|[Hin|[]]]; [|discriminate].
    exact (Hwp _ _ Hin).
  - destruct Hwp as [Hs Hno]. split; [by exists r|exact Hno].
Qed.

End Staging.

(** ** The file system around the scratch directory *)

Section Frame.

Context {Model : Type}.
Implicit Types (env : Env Model) (st : State Model) (req : Request).

Lemma first_free_spec (f : gmap string node) dir pre names d :
  first_free f dir pre names = Some d ->
  f !! d = None /\ exists n, In n names /\ d = os_path_join dir (pre +:+ n).
Proof.
  induction names as [|n names IH]; simpl; [discriminate|].
  destruct (f !! os_path_join dir (pre +:+ n)) eqn:E.
  - intros H. destruct (IH H) as (Hd & n' & Hin & ->). eauto 6.
  - intros [= <-]. eauto 6.
Qed.

Lemma convert_try_frame env req f ev :
  wp (convert_try env req) (fun _ => only_scratch_written env f)
    (fun _ => only_scratch_written env f) (mkState f ev None).
Proof.
  unfold_handler.
  repeat wp_step_knowing.
  all: unfold only_scratch_written; cbn [tmp_dir fs]; try reflexivity.
  all: match goal with
       | H : first_free _ _ _ _ = Some _ |- _ =>
           destruct (first_free_spec _ _ _ _ _ H) as (Hfree & Hname)
       end.
  all: split; [exact Hfree|]; split; [exact Hname|].
  all: intros p H0 H1 H2 H3; rewrite ?lookup_insert_ne by congruence; reflexivity.
Qed.

Lemma convert_finally_cases env st :
  exists f',
    convert_finally env st = (inr tt, mkState f' (events st) (tmp_dir st)) /\
    (f' = fs st \/ exists d, tmp_dir st = Some d /\ f' = rmtree_fs d (fs st)).
Proof.
  destruct st as [f ev t]. unfold convert_finally, bind, get_tmp_dir, get_fs.
  cbn [tmp_dir fs events].
  destruct t as [d|]; [|by eexists; split; [reflexivity|left]].
  destruct (negb (String.eqb d "") && path_exists f d);
    [|by eexists; split; [reflexivity|left]].
  unfold try_except, rmtree, bind, check_fault.
  destruct (fault env AtRmtree) as [e|]; simpl.
  - rewrite isinstance_Exception. by eexists; split; [reflexivity|left].
  - eexists; split; [reflexivity|]. right. by exists d.
Qed.

(** The cleanup starts from the file system and the [tmp_dir] the [try]
    body left, and keeps [tmp_dir]. *)
Lemma convert_model_final env req st :
  exists st1 ev' f',
    snd (convert_try env req (mkState (fs st) (events st) None)) = st1 /\
    snd (convert_model env req st) = mkState f' ev' (tmp_dir st1) /\
    (f' = fs st1 \/ exists d, tmp_dir st1 = Some d /\ f' = rmtree_fs d (fs st1)).
Proof.
  rewrite convert_model_eq.
  destruct (convert_try env req _) as [[e|r] st1]; cbn [snd fst].
  - destruct (convert_finally_cases env
                (mkState (fs st1) (events st1 ++ [EvTraceback e]) (tmp_dir st1)))
      as (f' & -> & Hf). cbn [snd]. exists st1. eexists _, f'. auto.
  - destruct (convert_finally_cases env st1) as (f' & -> & Hf). cbn [snd].
    exists st1. eexists _, f'. auto.
Qed.

(** The scratch directory is new: when the handler has created one, its
    path was free in the file system the request arrived at, and it is the
    temporary directory joined with [tfjs_convert_] and one of the
    candidate names. *)
Theorem scratch_is_fresh env req st d :
  tmp_dir (snd (convert_model env req st)) = Some d ->
  fs st !! d = None /\
  exists n, In n (tmp_names env) /\
            d = os_path_join (tempdir env) ("tfjs_convert_" +:+ n).
Proof.
  pose proof (convert_try_frame env req (fs st) (events st)) as Hwp.
  destruct (convert_model_final env req st) as (st1 & ev' & f' & Hst1 & -> & _).
  cbn [tmp_dir]. intros Hd. unfold wp in Hwp.
  destruct (convert_try env req _) as [[e|r] st2]; cbn [snd] in Hst1; subst st2;
    unfold only_scratch_written in Hwp; rewrite Hd in Hwp;
    destruct Hwp as (Hfree & Hname & _); by split.
Qed.

Lemma ends_with_slash_app a b :
  b <> "" -> ends_with_slash (a +:+ b) = ends_with_slash b.
Proof.
  intros Hb. induction a as [|c a IH]; [reflexivity|].
  rewrite <- IH. change (String c a +:+ b) with (String c (a +:+ b)).
  destruct (a +:+ b) eqn:E; [|reflexivity].
  destruct a; simpl in E; [contradiction|discriminate].
Qed.

Lemma scratch_name_no_slash dir n :
  ends_with_slash n = false ->
  ends_with_slash (os_path_join dir ("tfjs_convert_" +:+ n)) = false.
Proof.
  intros Hn. unfold os_path_join.
  assert (String.prefix "/" ("tfjs_convert_" +:+ n) = false) as -> by reflexivity.
  assert (ends_with_slash ("tfjs_convert_" +:+ n) = false) as Hb.
  { destruct n as [|c n]; [reflexivity|]. by rewrite ends_with_slash_app. }
  destruct (String.eqb dir "" || ends_with_slash dir).
  - by rewrite ends_with_slash_app.
  - rewrite ends_with_slash_app by discriminate.
    change ("/" +:+ "tfjs_convert_" +:+ n) with ("/t" +:+ ("fjs_convert_" +:+ n)).
    rewrite ends_with_slash_app by discriminate.
    destruct n as [|c n]; [reflexivity|]. by rewrite ends_with_slash_app.
Qed.

Lemma prefix_app a b : String.prefix a (a +:+ b) = true.
Proof.
  induction a as [|c a IH]; simpl; [by destruct b|].
  destruct (ascii_dec c c); [exact IH|contradiction].
Qed.

Lemma string_app_assoc (a b c : string) : (a +:+ b) +:+ c = a +:+ (b +:+ c).
Proof.
  induction a as [|x a IH]; [reflexivity|].
  change (String x ((a +:+ b) +:+ c) = String x (a +:+ (b +:+ c))). by f_equal.
Qed.

(** A file staged in a directory lies below it. *)
Lemma under_staged d x :
  d <> "" -> ends_with_slash d = false -> String.prefix "/" x = false ->
  under d (os_path_join d x) = true.
Proof.
  intros Hd Hs Hx. unfold os_path_join, under. rewrite Hx, Hs.
  apply String.eqb_neq in Hd. rewrite Hd. cbn [orb].
  rewrite <- string_app_assoc, prefix_app. apply orb_true_r.
Qed.

Lemma rmtree_fs_lookup_outside d (f : gmap string node) p :
  under d p = false -> rmtree_fs d f !! p = f !! p.
Proof.
  intros Hu. unfold rmtree_fs. rewrite map_lookup_filter.
  destruct (f !! p) as [x|]; [|reflexivity]. cbn.
  rewrite option_guard_True; [reflexivity|exact Hu].
Qed.

Lemma frame_outside env (f : gmap string node) st1 d p :
  (forall n, In n (tmp_names env) -> ends_with_slash n = false) ->
  only_scratch_written env f st1 ->
  tmp_dir st1 = Some d ->
  under d p = false ->
  fs st1 !! p = f !! p.
Proof.
  intros Hnames Hinv Hd Hu. unfold only_scratch_written in Hinv. rewrite Hd in Hinv.
  destruct Hinv as (_ & (n & Hn & Hdn) & Hrest).
  assert (d <> "") as Hne.
  { subst d. by apply os_path_join_nonempty. }
  assert (ends_with_slash d = false) as Hs.
  { subst d. apply scratch_name_no_slash. by apply Hnames. }
  apply Hrest; intros ->.
  - by rewrite under_refl in Hu.
  - by rewrite under_staged in Hu.
  - by rewrite under_staged in Hu.
  - by rewrite under_staged in Hu.
Qed.

(** The handler touches nothing outside its scratch directory, whatever
    the outcome and whether or not the cleanup succeeds: with candidate
    names that do not end in a slash, a request that creates no scratch
    directory leaves the file system as it was, and a request that creates
    one leaves every path that is not the directory or below it as it
    was. *)
Theorem outside_scratch_untouched env req st :
  (forall n, In n (tmp_names env) -> ends_with_slash n = false) ->
  match tmp_dir (snd (convert_model env req st)) with
  | None => fs (snd (convert_model env req st)) = fs st
  | Some d =>
      forall p, under d p = false ->
                fs (snd (convert_model env req st)) !! p = fs st !! p
  end.
Proof.
  intros Hnames.
  pose proof (convert_try_frame env req (fs st) (events st)) as Hwp.
  destruct (convert_model_final env req st)
    as (st1 & ev' & f' & Hst1 & -> & Hf').
  assert (only_scratch_written env (fs st) st1) as Hinv.
  { unfold wp in Hwp. destruct (convert_try env req _) as [[e|r] st2];
      cbn [snd] in Hst1; by subst st2. }
  cbn [tmp_dir fs]. destruct (tmp_dir st1) as [d|] eqn:Hd.
  - intros p Hu. destruct Hf' as [->|(d' & [= <-] & ->)].
    + by eapply frame_outside.
    + rewrite rmtree_fs_lookup_outside by exact Hu. by eapply frame_outside.
  - unfold only_scratch_written in Hinv. rewrite Hd in Hinv.
    destruct Hf' as [->|(d' & [=] & _)]. exact Hinv.
Qed.

Lemma scratch_removed_gone env req st d :
  tmp_dir (snd (convert_model env req st)) = Some d ->
  fault env AtRmtree = None ->
  forall p, under d p = true -> fs (snd (convert_model env req st)) !! p = None.
Proof.
  pose proof (convert_try_scratch env req (fs st) (events st)) as Hwp.
  rewrite convert_model_eq. unfold wp in Hwp.
  destruct (convert_try env req _) as [[e|r] st1]; cbn [snd]; intros Hd Hf.
  - set (st2 := mkState (fs st1) (events st1 ++ [EvTraceback e]) (tmp_dir st1)) in *.
    destruct (convert_finally_quiet env st2) as [f' Hq].
    assert (tmp_dir st1 = Some d) as Ht by (rewrite Hq in Hd; exact Hd).
    destruct (Hwp d Ht) as [Hne Hs].
    rewrite (convert_finally_removes env st2 d Ht Hne Hs Hf). cbn [snd fs].
    intros p. apply rmtree_fs_lookup.
  - destruct (convert_finally_quiet env st1) as [f' Hq].
    assert (tmp_dir st1 = Some d) as Ht by (rewrite Hq in Hd; exact Hd).
    destruct (Hwp d Ht) as [Hne Hs].
    rewrite (convert_finally_removes env st1 d Ht Hne Hs Hf). cbn [snd fs].
    intros p. apply rmtree_fs_lookup.
Qed.

(** With a cleanup that is not refused the handler leaves no trace in the
    file system: when the candidate names do not end in a slash and
    nothing lies below a candidate path that is free, the file system
    after the request is the file system before it, whatever the answer. *)
Theorem filesystem_restored env req st :
  (forall n, In n (tmp_names env) -> ends_with_slash n = false) ->
  (forall n p,
      In n (tmp_names env) ->
      fs st !! os_path_join (tempdir env) ("tfjs_convert_" +:+ n) = None ->
      under (os_path_join (tempdir env) ("tfjs_convert_" +:+ n)) p = true ->
      fs st !! p = None) ->
  fault env AtRmtree = None ->
  fs (snd (convert_model env req st)) = fs st.
Proof.
  intros Hnames Hbelow Hfault.
  pose proof (outside_scratch_untouched env req st Hnames) as Hout.
  pose proof (scratch_is_fresh env req st) as Hfresh.
  pose proof (scratch_removed_gone env req st) as Hgone.
  destruct (tmp_dir (snd (convert_model env req st))) as [d|]; [|exact Hout].
  destruct (Hfresh d eq_refl) as (Hfree & n & Hn & ->).
  apply map_eq. intros p.
  destruct (under (os_path_join (tempdir env) ("tfjs_convert_" +:+ n)) p) eqn:Hu.
  - rewrite (Hbelow n p Hn Hfree Hu). by apply (Hgone _ eq_refl Hfault).
  - by apply Hout.
Qed.

End Frame.

(** ** How often the libraries are called *)

Section Calls.

Context {Model : Type}.
Implicit Types (env : Env Model) (st : State Model) (req : Request).

Lemma convert_try_calls_once env req f :
  wp (convert_try env req) (fun _ => called_at_most_once)
    (fun _ => called_at_most_once) (arrive f).
Proof.
  unfold arrive. unfold_handler.
  repeat wp_step_knowing.
  all: unfold called_at_most_once, count_calls;
    cbn [events app List.filter is_load is_convert length]; lia.
Qed.

Lemma count_calls_app which (l1 l2 : list (event Model)) :
  count_calls which (l1 ++ l2) = (count_calls which l1 + count_calls which l2)%nat.
Proof. unfold count_calls. by rewrite List.filter_app, length_app. Qed.

(** One request costs at most one load and at most one conversion, and
    there is no conversion without a load. *)
Theorem libraries_called_at_most_once env req f :
  (count_calls is_load (events (snd (convert_model env req (arrive f)))) <= 1)%nat /\
  (count_calls is_convert (events (snd (convert_model env req (arrive f))))
   <= count_calls is_load (events (snd (convert_model env req (arrive f)))))%nat.
Proof.
  pose proof (convert_try_calls_once env req f) as Hwp.
  rewrite convert_model_events. unfold wp in Hwp.
  cbn [arrive fs events]. fold (@arrive Model f).
  destruct (convert_try env req (arrive f)) as [[e|r] st1]; [|exact Hwp].
  rewrite !count_calls_app. destruct Hwp as [H1 H2].
  unfold count_calls at 2 4 6. cbn [List.filter is_load is_convert length].
  lia.
Qed.

End Calls.

(** ** The health check on a broken installation *)

Section Health.

Context {Model : Type}.
Implicit Types (env : Env Model) (st : State Model).

(** The health check is not caught off guard by a missing library, but it
    is by a broken one: when an import raises something other than
    ImportError, [health] raises it and answers nothing. *)
Theorem health_raises_on_broken_install env st e :
  first_crash env = Some e -> health env st = (inl e, st).
Proof.
  unfold first_crash, health, probe, try_except, bind, lift, ret.
  destruct (import_tensorflow env) as [e1|v1];
    [destruct (Exc.isinstance e1 Exc.ImportError) eqn:E1|];
    destruct (import_tensorflowjs env) as [e2|v2];
    try destruct (Exc.isinstance e2 Exc.ImportError) eqn:E2;
    cbn; rewrite ?E1, ?E2; intros H; try discriminate H; by injection H as <-.
Qed.

End Health.

(** ** The values of the quantize argument *)

Section Spellings.

(** The flag is set by the sixteen ways of writing [true] in upper and
    lower case, and by nothing else: not by [1], [yes] or [on], and not by
    [true] with a space around it. *)
Theorem quantize_flag_spellings req :
  quantize_flag req = true <->
  exists a b c d,
    multi_get "quantize" (args req) =
    Some (String a (String b (String c (String d EmptyString)))) /\
    (a = "t" \/ a = "T")%char /\ (b = "r" \/ b = "R")%char /\
    (c = "u" \/ c = "U")%char /\ (d = "e" \/ d = "E")%char.
Proof.
  rewrite quantize_flag_unfold.
  destruct (multi_get "quantize" (args req)) as [v|].
  - rewrite String.eqb_eq, lower_true_iff. split.
    + intros (a & b & c & d & -> & H). by exists a, b, c, d.
    + intros (a & b & c & d & [= ->] & H). by exists a, b, c, d.
  - split; [discriminate|]. by intros (a & b & c & d & [=] & _).
Qed.

End Spellings.

(** ** Startup *)

Section StartupProperties.

Context {Model : Type}.
Implicit Types (env : Env Model).

(** Missing libraries do not keep the server from starting, broken ones
    do: the block reaches [app.run(host='0.0.0.0', port=5000, debug=True)]
    unless an import raises something other than ImportError, and then it
    ends with that exception. *)
Theorem startup_serves_unless_import_crashes env out :
  fst (startup env out) =
  match first_crash env with
  | None => inr (mkServe "0.0.0.0" 5000 true)
  | Some e => inl e
  end.
Proof.
  unfold first_crash, startup, check_dependency, out_bind, print, out_ret, out_raise.
  destruct (import_tensorflow env) as [e1|v1];
    [destruct (Exc.isinstance e1 Exc.ImportError) eqn:E1|];
    destruct (import_tensorflowjs env) as [e2|v2];
    try destruct (Exc.isinstance e2 Exc.ImportError) eqn:E2;
    reflexivity.
Qed.

(** The dependency report of a startup that reaches [app.run] is
    accurate: a library gets its warning line exactly when its import
    raised, its version line when it was imported, and the
    install-everything hint is printed exactly when some library is
    missing. *)
Theorem startup_report_accurate env :
  first_crash env = None ->
  let out := snd (startup env []) in
  (In "  WARNING: TensorFlow not installed!" out <->
   exists e, import_tensorflow env = inl e) /\
  (In "  WARNING: TensorFlow.js not installed!" out <->
   exists e, import_tensorflowjs env = inl e) /\
  (forall v, import_tensorflow env = inr v -> In ("  TensorFlow: " +:+ v) out) /\
  (forall v, import_tensorflowjs env = inr v -> In ("  TensorFlow.js: " +:+ v) out) /\
  (In "Install all dependencies:" out <-> some_missing env).
Proof.
  unfold first_crash, some_missing, startup, check_dependency, out_bind, print,
    out_ret, out_raise.
  destruct (import_tensorflow env) as [e1|v1];
    [destruct (Exc.isinstance e1 Exc.ImportError) eqn:E1|];
    destruct (import_tensorflowjs env) as [e2|v2];
    try destruct (Exc.isinstance e2 Exc.ImportError) eqn:E2;
    intros Hc; try discriminate Hc; cbn [snd app negb].
  all: repeat split.
  all: try (intros _; by eauto).
  all: try (intros v [= <-]; cbn [In]; by auto 30).
  all: try (intros _; cbn [In]; by auto 30).
  all: try (intros [[e [=]]|[e [=]]]).
  all: try (intros [e [=]]).
  all: cbn [In String.append]; intros H;
    repeat (destruct H as [H|H]; try discriminate H); try contradiction.
Qed.

End StartupProperties.

(** ** The log, and a library that is broken rather than missing *)

Section Log.

Context {Model : Type}.
Implicit Types (env : Env Model) (st : State Model) (req : Request).

Lemma convert_try_log env req f :
  wp (convert_try env req) (fun _ => log_accurate env req)
    (fun _ => log_accurate env req) (arrive f).
Proof.
  unfold arrive. unfold_handler.
  repeat wp_step_knowing.
  all: unfold log_accurate; split; [|split; [|split]].
  all: try (intros n Hin); try (intros Hin); case_in Hin.
  all: try (injection Hin as <-).
  all: first
         [ reflexivity
         | congruence
         | by eexists
         | eexists _, _; split; [in_list|]; split; [eassumption|reflexivity] ].
Qed.

(** The log does not lie: the weights size it prints is the size of the
    uploaded weights, the quantize value it prints is the flag of the
    request, it announces float16 only under the flag, and the model size
    it prints is the size of the bytes the converter returned. *)
Theorem log_is_accurate env req f :
  let log := events (snd (convert_model env req (arrive f))) in
  (forall n,
      In (EvPrint (LogWeightsSize n)) log ->
      exists weights,
        multi_get "weights_bin" (files req) = Some weights /\
        n = String.length weights) /\
  (forall q, In (EvPrint (LogConverting q)) log -> q = quantize_flag req) /\
  (In (EvPrint LogFloat16) log -> quantize_flag req = true) /\
  (forall n,
      In (EvPrint (LogModelSize n)) log ->
      exists c bytes,
        In (EvConvert c) log /\ convert env c = inr bytes /\
        n = String.length bytes).
Proof.
  pose proof (convert_try_log env req f) as Hwp. cbv zeta.
  rewrite convert_model_events. unfold wp in Hwp.
  cbn [arrive fs events]. fold (@arrive Model f).
  destruct (convert_try env req (arrive f)) as [[e|r] st1]; [|exact Hwp].
  destruct Hwp as (H1 & H2 & H3 & H4). repeat split.
  - intros n Hin. apply in_app_iff in Hin as [Hin|[Hin|[]]]; [eauto|discriminate].
  - intros q Hin. apply in_app_iff in Hin as [Hin|[Hin|[]]]; [eauto|discriminate].
  - intros Hin. apply in_app_iff in Hin as [Hin|[Hin|[]]]; [eauto|discriminate].
  - intros n Hin. apply in_app_iff in Hin as [Hin|[Hin|[]]]; [|discriminate].
    destruct (H4 n Hin) as (c & bytes & Hc & Hb & ->).
    exists c, bytes. split; [apply in_app_iff; by left|by split].
Qed.

(** A library that is installed but broken is reported like any other
    failure, without the install hint: when an import raises something
    other than ImportError, the answer is the 500 of the catch-all clause
    with [str(e)], the traceback is printed, and nothing else happens. *)
Theorem broken_import_reported_generically env req st e :
  import_error env = Some e ->
  Exc.isinstance e Exc.ImportError = false ->
  convert_model env req st =
  (inr (error_response 500 (Exc.str e)),
   mkState (fs st) (events st ++ [EvTraceback e]) None).
Proof.
  intros He Hi. rewrite convert_model_eq.
  unfold convert_try at 1. unfold bind at 1. rewrite lazy_imports_run, He, Hi.
  cbn [fs events tmp_dir]. by rewrite convert_finally_no_scratch.
Qed.

End Log.

(** * The further properties on concrete requests *)

Section FurtherRuns.

Lemma patch_manifest_list_iff_witness :
  Forall is_object
    [JDict [("paths", JList [JStr "group1-shard1of1.bin"]); ("weights", JList [])]] /\
  exists cfg', patch_manifest Demo.topology = inr cfg'.
Proof.
  assert (Forall is_object
            [JDict [("paths", JList [JStr "group1-shard1of1.bin"]);
                    ("weights", JList [])]]) as H.
  { constructor; [by eexists|constructor]. }
  split; [exact H|].
  exact (proj2 (proj1 (patch_manifest_list_iff
                         [("modelTopology", JDict [("class_name", JStr "Sequential")]);
                          ("weightsManifest",
                           JList [JDict [("paths", JList [JStr "group1-shard1of1.bin"]);
                                         ("weights", JList [])]])]
                         _ eq_refl)) H).
Defined.

Lemma patch_manifest_keeps_rest_witness :
  exists d d' entries entries',
    Demo.topology = JDict d /\ Demo.patched_topology = JDict d' /\
    map fst d' = map fst d /\
    (forall k, k <> "weightsManifest" -> dict_get k d' = dict_get k d) /\
    manifest_entries Demo.topology = inr entries /\
    manifest_entries Demo.patched_topology = inr entries' /\
    Forall2 (fun old new =>
               forall k, k <> "paths" -> py_getitem k new = py_getitem k old)
      entries entries'.
Proof.
  exact (patch_manifest_keeps_rest Demo.topology Demo.patched_topology eq_refl).
Defined.

Lemma patch_manifest_idempotent_witness :
  patch_manifest Demo.topology = inr Demo.patched_topology /\
  patch_manifest Demo.patched_topology = inr Demo.patched_topology.
Proof.
  split; [reflexivity|].
  exact (patch_manifest_idempotent Demo.topology Demo.patched_topology eq_refl).
Defined.

Lemma converted_bytes_are_delivered_witness :
  In (EvConvert Scenario.plain_converter)
    (events (snd (Demo.run Demo.env Demo.request))) /\
  fst (Demo.run Demo.env Demo.request) =
  inr (mkResponse 200
         (FileBody "TFL3/float32-twice-the-size" "application/octet-stream"
            "model.tflite")).
Proof.
  assert (In (EvConvert Scenario.plain_converter)
            (events (snd (Demo.run Demo.env Demo.request)))) as Hin
    by (vm_compute; tauto).
  split; [exact Hin|].
  exact (converted_bytes_are_delivered Demo.env Demo.request ∅
           Scenario.plain_converter "TFL3/float32-twice-the-size"
           Hin eq_refl eq_refl eq_refl).
Defined.

Lemma converted_model_was_loaded_witness :
  exists seen path,
    In (EvLoad seen path) (events (snd (Demo.run Demo.env Demo.request))) /\
    load_keras_model Demo.env seen path = inr (Demo.dumps Demo.patched_topology).
Proof.
  assert (In (EvConvert Scenario.plain_converter)
            (events (snd (Demo.run Demo.env Demo.request)))) as Hin
    by (vm_compute; tauto).
  destruct (converted_model_was_loaded Demo.env Demo.request ∅ _ Hin)
    as (seen & path & Hl & Hm & _).
  exists seen, path. split; [exact Hl|exact Hm].
Defined.

Lemma traceback_iff_caught_witness :
  In (EvTraceback (Exc.mk Exc.OSError "[Errno 28] No space left on device"))
    (events (snd (Demo.run Demo.env_disk_full Demo.request))) /\
  fst (Demo.run Demo.env_disk_full Demo.request) =
  inr (error_response 500 "[Errno 28] No space left on device").
Proof.
  destruct (traceback_iff_caught Demo.env_disk_full Demo.request ∅
              (Exc.mk Exc.OSError "[Errno 28] No space left on device"))
    as [[_ Hback] Hresp].
  assert (In (EvTraceback (Exc.mk Exc.OSError "[Errno 28] No space left on device"))
            (events (snd (Demo.run Demo.env_disk_full Demo.request)))) as Hin.
  { apply Hback.
    exists (snd (convert_try Demo.env_disk_full Demo.request (arrive ∅))).
    vm_compute. reflexivity. }
  split; [exact Hin|exact (Hresp Hin)].
Defined.

Lemma loader_finds_weights_witness :
  exists tmp,
    Demo.staged !! tmp = Some Dir /\
    Demo.staged !! os_path_join tmp "weights.bin" = Some (File "0123456789abcdef").
Proof.
  assert (In (EvLoad Demo.staged "/tmp/tfjs_convert_k3x9q0ab/model.json")
            (events (snd (Demo.run Demo.env Demo.request)))) as Hin
    by (vm_compute; tauto).
  destruct (loader_finds_weights Demo.env Demo.request ∅ _ _ Hin)
    as (tmp & weights & _ & Hw & Hd & Hf).
  injection Hw as <-. exists tmp. split; [exact Hd|exact Hf].
Defined.

Lemma non_object_topology_rejected_witness :
  (exists resp,
      fst (Demo.run Scenario.env Scenario.request_list_topology) = inr resp /\
      (status resp = 400%Z \/ status resp = 500%Z)) /\
  forall seen path,
    ~ In (EvLoad seen path)
        (events (snd (Demo.run Scenario.env Scenario.request_list_topology))).
Proof.
  refine (non_object_topology_rejected Scenario.env Scenario.request_list_topology
            ∅ "[]" "[]" (JList []) eq_refl eq_refl eq_refl _).
  intros [d H]. discriminate H.
Defined.

Lemma scratch_is_fresh_witness :
  tmp_dir (snd (Demo.run Demo.env Demo.request)) = Some Demo.scratch /\
  (∅ : gmap string node) !! Demo.scratch = None /\
  exists n, In n ["k3x9q0ab"; "w81mzp4c"] /\
            Demo.scratch = os_path_join "/tmp" ("tfjs_convert_" +:+ n).
Proof.
  assert (tmp_dir (snd (Demo.run Demo.env Demo.request)) = Some Demo.scratch) as Ht
    by (vm_compute; reflexivity).
  split; [exact Ht|].
  exact (scratch_is_fresh Demo.env Demo.request (arrive ∅) Demo.scratch Ht).
Defined.

Lemma demo_names_plain n : In n (tmp_names Demo.env) -> ends_with_slash n = false.
Proof. intros [<-|[<-|[]]]; reflexivity. Defined.

Lemma outside_scratch_untouched_witness :
  fs (snd (convert_model Demo.env_rmtree_refused Demo.request
             (arrive Scenario.disk))) !! "/data/keep.txt" =
  Some (File "precious").
Proof.
  pose proof (outside_scratch_untouched Demo.env_rmtree_refused Demo.request
                (arrive Scenario.disk) demo_names_plain) as H.
  assert (tmp_dir (snd (convert_model Demo.env_rmtree_refused Demo.request
                          (arrive Scenario.disk))) = Some Demo.scratch) as Ht
    by (vm_compute; reflexivity).
  rewrite Ht in H. rewrite (H "/data/keep.txt" eq_refl). reflexivity.
Defined.

Lemma filesystem_restored_witness :
  fs (snd (convert_model Demo.env Demo.request (arrive Scenario.disk))) =
  Scenario.disk.
Proof.
  refine (filesystem_restored Demo.env Demo.request (arrive Scenario.disk)
            demo_names_plain _ eq_refl).
  intros n p Hn _ Hu. cbn [arrive fs]. unfold Scenario.disk.
  destruct (decide (p = "/data/keep.txt")) as [->|Hp1];
    [destruct Hn as [<-|[<-|[]]]; discriminate Hu|].
  destruct (decide (p = "/data")) as [->|Hp2];
    [destruct Hn as [<-|[<-|[]]]; discriminate Hu|].
  rewrite lookup_insert_ne by congruence.
  rewrite lookup_insert_ne by congruence. apply lookup_empty.
Defined.

Lemma health_raises_on_broken_install_witness :
  health Scenario.env_broken (arrive ∅) = (inl Scenario.broken, arrive ∅).
Proof.
  exact (health_raises_on_broken_install Scenario.env_broken (arrive ∅)
           Scenario.broken eq_refl).
Defined.

Lemma quantize_flag_spellings_witness :
  quantize_flag (mkRequest [] [] [("quantize", "tRuE")]) = true /\
  quantize_flag (mkRequest [] [] [("quantize", "true ")]) <> true.
Proof.
  split.
  - apply (proj2 (quantize_flag_spellings (mkRequest [] [] [("quantize", "tRuE")]))).
    exists "t"%char, "R"%char, "u"%char, "E"%char. repeat split; auto.
  - intros H.
    destruct (proj1 (quantize_flag_spellings
                       (mkRequest [] [] [("quantize", "true ")])) H)
      as (a & b & c & d & Hv & _).
    discriminate Hv.
Defined.

Lemma startup_report_accurate_witness :
  In "  WARNING: TensorFlow not installed!"
    (snd (startup Demo.env_without_tensorflow [])) /\
  In "  TensorFlow.js: 4.17.0" (snd (startup Demo.env_without_tensorflow [])) /\
  In "Install all dependencies:" (snd (startup Demo.env_without_tensorflow [])).
Proof.
  destruct (startup_report_accurate Demo.env_without_tensorflow eq_refl)
    as (Hw & _ & _ & Hv & Hh).
  split; [|split].
  - apply Hw. by eexists.
  - exact (Hv "4.17.0" eq_refl).
  - apply Hh. left. by eexists.
Defined.

Lemma broken_import_reported_generically_witness :
  Demo.run Scenario.env_broken Demo.request_without_files =
  (inr (error_response 500 "module 'numpy' has no attribute 'object'"),
   mkState ∅ [EvTraceback Scenario.broken] None).
Proof.
  exact (broken_import_reported_generically Scenario.env_broken
           Demo.request_without_files (arrive ∅) Scenario.broken eq_refl eq_refl).
Defined.

Lemma log_is_accurate_witness :
  In (EvPrint (LogWeightsSize 16)) (events (snd (Demo.run Demo.env Demo.request))) /\
  exists weights,
    multi_get "weights_bin" (files Demo.request) = Some weights /\
    16%nat = String.length weights.
Proof.
  assert (In (EvPrint (LogWeightsSize 16))
            (events (snd (Demo.run Demo.env Demo.request)))) as Hin
    by (vm_compute; tauto).
  split; [exact Hin|].
  exact (proj1 (log_is_accurate Demo.env Demo.request ∅) 16%nat Hin).
Defined.

(** The startup block on the machine without tensorflow, and on the one
    where tensorflow is broken. *)
Example startup_without_tensorflow :
  fst (startup Demo.env_without_tensorflow []) = inr (mkServe "0.0.0.0" 5000 true) /\
  length (snd (startup Demo.env_without_tensorflow [])) = 24%nat.
Proof. vm_compute. split; reflexivity. Qed.

Example startup_broken_tensorflow :
  fst (startup Scenario.env_broken []) = inl Scenario.broken /\
  length (snd (startup Scenario.env_broken [])) = 14%nat.
Proof. vm_compute. split; reflexivity. Qed.

End FurtherRuns.
